(** * lighter: the step protocol of [System] and the command line entry point

    A shallow embedding of [lighter/system.py] ([System._step],
    [System._log_stats], [System._log], [System.learning_rate]) and of
    [lighter/cli.py] ([run_trainer_method]).

    Python values are dynamically typed: [pyval] has [None], opaque objects
    (tensors, identifiers, ...) and dictionaries.  A dictionary that the code
    iterates over (a loss or metric mapping) keeps its insertion order and is
    an association list; keyword arguments and the returned dictionaries are
    only ever looked up by key and are [gmap]s.

    Effects are explicit.  A computation returns the list of events it has
    produced (calls of the collaborators and log records) together with
    either a value or the exception that was raised. *)

From Stdlib Require Import ZArith Ascii String.
From stdpp Require Import base option list strings gmap.

Local Open Scope Z_scope.
#[local] Set Warnings "-clear-no-such-hyp".

(** ** Exceptions *)

Inductive exn_class :=
  | TypeError
  | ValueError
  | AttributeError
  | KeyError
  | IndexError
  | FileNotFoundError
  | SystemExit.

#[global] Instance exn_class_eq_dec : EqDecision exn_class.
Proof. solve_decision. Defined.

Record exn := Exn { exn_cls : exn_class; exn_msg : string }.

#[global] Instance exn_eq_dec : EqDecision exn.
Proof. solve_decision. Defined.

Inductive result (A : Type) :=
  | Ok (a : A)
  | Raise (e : exn).
Arguments Ok {A} a.
Arguments Raise {A} e.

(** [needle] occurs in [hay]. *)
Definition mentions (needle hay : string) : bool :=
  match String.index 0 needle hay with
  | Some _ => true
  | None => false
  end.

(** ** Computations: a trace of events and a value or an exception *)

Definition M (E A : Type) : Type := (list E * result A)%type.

Definition ret {E A} (a : A) : M E A := ([], Ok a).
Definition raise {E A} (e : exn) : M E A := ([], Raise e).
Definition emit {E} (ev : E) : M E unit := ([ev], Ok tt).
Definition lift {E A} (r : result A) : M E A := ([], r).

Definition bind {E A B} (m : M E A) (k : A -> M E B) : M E B :=
  match m with
  | (t, Ok a) => let '(t', r) := k a in (t ++ t', r)
  | (t, Raise e) => (t, Raise e)
  end.

Notation "x <- m ;; k" := (bind m (fun x => k))
  (at level 100, m at next level, right associativity).
Notation "m ;; k" := (bind m (fun _ => k))
  (at level 100, right associativity).

(** [for x in l: body(x)] *)
Fixpoint for_each {E A} (l : list A) (body : A -> M E unit) : M E unit :=
  match l with
  | [] => ret tt
  | x :: l' => body x ;; for_each l' body
  end.

(** The events of a computation and its outcome. *)
Definition trace {E A} (m : M E A) : list E := fst m.
Definition outcome {E A} (m : M E A) : result A := snd m.

(** * The system ([lighter/system.py]) *)

Section Lighter.

(** Tensors, identifiers and every other object the code only passes on. *)
Context {tensor : Type}.

#[warnings="-register-all"]
Inductive pyval :=
  | PNone
  | PObj (t : tensor)
  | PDict (d : list (string * pyval)).

(** [isinstance(v, dict)] *)
Definition isinstance_dict (v : pyval) : bool :=
  match v with PDict _ => true | _ => false end.

(** [v is None] *)
Definition is_None (v : pyval) : bool :=
  match v with PNone => true | _ => false end.

(** [d[k]] of an insertion-ordered dictionary. *)
Fixpoint dict_get (k : string) (d : list (string * pyval)) : option pyval :=
  match d with
  | [] => None
  | (k', v) :: d' => if String.eqb k k' then Some v else dict_get k d'
  end.

(** [k in d] *)
Definition dict_has (k : string) (d : list (string * pyval)) : bool :=
  match dict_get k d with Some _ => true | None => false end.

(** ** The data model of [lighter.utils.types] *)

(** Modelled from the spec: the enumeration [Mode] of [lighter.utils.types],
    which is not among the sources; the spec gives it as
    {train, val, test, predict}, with these strings in the log names. *)
Inductive Mode := TRAIN | VAL | TEST | PREDICT.

#[global] Instance Mode_eq_dec : EqDecision Mode.
Proof. solve_decision. Defined.

(** [f"{mode}"] *)
Definition Mode_value (m : Mode) : string :=
  match m with
  | TRAIN => "train"
  | VAL => "val"
  | TEST => "test"
  | PREDICT => "predict"
  end.

(** Modelled from the spec: the keys [Data.INPUT], [Data.TARGET],
    [Data.PRED] and [Data.ID] of [lighter.utils.types], which is not among
    the sources; the spec names the entries input, target, pred and id. *)
Definition Data_INPUT : string := "input".
Definition Data_TARGET : string := "target".
Definition Data_PRED : string := "pred".
Definition Data_ID : string := "id".

Record Batch := mkBatch {
  batch_id : pyval;
  batch_input : pyval;
  batch_target : pyval
}.

(** The attribute names of a [Batch]. *)
Definition Batch_fields : gset string := {[ "id"; "input"; "target" ]}.

(** Modelled from the spec: the constructor of [Batch] of
    [lighter.utils.types], called with the entries of the raw batch as
    keyword arguments; it is not among the sources.  Per the spec a
    batch has a mandatory [input] and optional [id] and [target]; any other
    key, or a missing [input], is rejected.  An absent optional entry is
    [None].  The rejection is a [TypeError], as for any Python call with a
    missing or an unexpected keyword argument. *)
Definition Batch_new (kwargs : gmap string pyval) : result Batch :=
  match kwargs !! "input" with
  | None =>
      Raise (Exn TypeError "missing required argument: 'input'")
  | Some i =>
      if bool_decide (dom kwargs ⊆ Batch_fields) then
        Ok {| batch_id := default PNone (kwargs !! "id");
              batch_input := i;
              batch_target := default PNone (kwargs !! "target") |}
      else Raise (Exn TypeError "got an unexpected keyword argument")
  end.


(** The attributes of a [Batch] as a mapping ([vars(batch)]). *)
Definition Batch_vars (b : Batch) : gmap string pyval :=
  {[ "id" := batch_id b; "input" := batch_input b;
     "target" := batch_target b ]}.

(** ** The system and its collaborators *)

(** A [torch.nn.Module].  [forward] takes the input and the optional keyword
    arguments [epoch] and [step]. *)
Record Module_ := mkModule {
  forward_fn : pyval -> option Z -> option Z -> pyval;
  (** Modelled from the spec: [hasarg(self.model.forward, name)] of
      [lighter.utils.misc], which is not among the sources: whether the
      model's callable accepts the named keyword. *)
  hasarg_epoch : bool;
  hasarg_step : bool
}.

(** A [torch.optim.Optimizer]: its parameter groups are dictionaries. *)
Record Optimizer := mkOptimizer { param_groups : list (gmap string pyval) }.

(** The part of the [pl.Trainer] the system reads. *)
Record Trainer := mkTrainer { logger : option string }.

(** What an inferer does with the system that it is given as a callable:
    it calls it, on inputs of its choice and any number of times, and gives
    the prediction. *)
Inductive inference :=
  | Predicted (pred : pyval)
  | CallSystem (input : pyval) (k : pyval -> inference).

Record System := mkSystem {
  model : Module_;
  criterion : option (pyval -> pyval -> pyval -> pyval);
  optimizer : option Optimizer;
  scheduler : option pyval;
  (** [inferer(input, self)]: what the inferer does with [self]. *)
  inferer : option (pyval -> inference);
  (** [self.metrics]: [None] when [mode not in self.metrics]. *)
  metrics : Mode -> option (option (pyval -> pyval -> pyval));
  (* attributes that the trainer provides *)
  trainer : Trainer;
  current_epoch : Z;
  global_step : Z;
  (** [self.batch_size]: [System.__init__] does not set this attribute,
      and the object has none ([None]) unless code outside of
      [lighter/system.py] sets it. *)
  batch_size : option Z
}.

(** What [self.log] receives. *)
Record log_record := mkLog {
  log_name : string;
  log_value : pyval;
  log_logger : bool;
  log_batch_size : Z;
  on_step : bool;
  on_epoch : bool;
  sync_dist : bool
}.

Inductive event :=
  | EvModel (input : pyval) (epoch step : option Z)
  | EvInferer (input : pyval)
  | EvCriterion (input pred target : pyval)
  | EvMetrics (mode : Mode) (pred target : pyval)
  | EvLog (r : log_record).

(** [get_optimizer_stats] of [lighter.utils.misc] is not among the sources;
    the code below takes it as given. *)
Variable get_optimizer_stats : option Optimizer -> result (list (string * pyval)).

(** [System.forward], without the call event. *)
Definition forward_kwargs (self : System) : option Z * option Z :=
  ((if hasarg_epoch (model self) then Some (current_epoch self) else None),
   (if hasarg_step (model self) then Some (global_step self) else None)).

Definition forward_value (self : System) (input : pyval) : pyval :=
  let '(epoch, step) := forward_kwargs self in
  forward_fn (model self) input epoch step.

(** [System.forward] *)
Definition forward (self : System) (input : pyval) : M event pyval :=
  let '(epoch, step) := forward_kwargs self in
  emit (EvModel input epoch step) ;;
  ret (forward_fn (model self) input epoch step).

(** What the inferer's calls of the system give and the events they are:
    each is a [System.forward]. *)
Fixpoint run_inference (self : System) (i : inference) : M event pyval :=
  match i with
  | Predicted pred => ret pred
  | CallSystem input k =>
      output <- forward self input ;; run_inference self (k output)
  end.

Definition no_batch_size : exn :=
  Exn AttributeError "'System' object has no attribute 'batch_size'".

(** [System._log]: the arguments of [self.log] are evaluated first, and
    [self.batch_size] raises when the object has no such attribute. *)
Definition _log (self : System) (name : string) (value : pyval)
    (on_step on_epoch : bool) : M event unit :=
  match batch_size self with
  | None => raise no_batch_size
  | Some size =>
      emit (EvLog {| log_name := name; log_value := value;
                     log_logger := true; log_batch_size := size;
                     on_step := on_step; on_epoch := on_epoch;
                     sync_dist := on_epoch |})
  end.

(** [v.items()] *)
Definition items (v : pyval) : M event (list (string * pyval)) :=
  match v with
  | PDict d => ret d
  | _ => raise (Exn AttributeError "object has no attribute 'items'")
  end.

(** [System._log_stats] *)
Definition _log_stats (self : System) (loss metrics : pyval) (mode : Mode)
    (batch_idx : Z) : M event unit :=
  match logger (trainer self) with
  | None => ret tt
  | Some _ =>
      (* Loss *)
      (if negb (is_None loss) then
         if negb (isinstance_dict loss) then
           _log self (Mode_value mode +:+ "/loss/step") loss true false ;;
           _log self (Mode_value mode +:+ "/loss/epoch") loss false true
         else
           l <- items loss ;;
           for_each l (fun '(name, subloss) =>
             _log self (Mode_value mode +:+ "/loss/" +:+ name +:+ "/step")
               subloss true false ;;
             _log self (Mode_value mode +:+ "/loss/" +:+ name +:+ "/epoch")
               subloss false true)
       else ret tt) ;;
      (* Metrics *)
      (if negb (is_None metrics) then
         l <- items metrics ;;
         for_each l (fun '(name, metric) =>
           _log self (Mode_value mode +:+ "/metrics/" +:+ name +:+ "/step")
             metric true false ;;
           _log self (Mode_value mode +:+ "/metrics/" +:+ name +:+ "/epoch")
             metric false true)
       else ret tt) ;;
      (* Optimizer's lr, momentum, beta *)
      (if bool_decide (mode = TRAIN) && (batch_idx =? 0) then
         stats <- lift (get_optimizer_stats (optimizer self)) ;;
         for_each stats (fun '(name, optimizer_stat) =>
           _log self (Mode_value mode +:+ "/" +:+ name) optimizer_stat
             false true)
       else ret tt)
  end.


(** *** The records of a call of [_log_stats], in closed form *)

(** A record logged with [on_step=True], for a system whose [batch_size]
    is [size]. *)
Definition step_record (size : Z) (name : string) (value : pyval)
    : log_record :=
  {| log_name := name; log_value := value; log_logger := true;
     log_batch_size := size;
     on_step := true; on_epoch := false; sync_dist := false |}.

(** A record logged with [on_epoch=True]. *)
Definition epoch_record (size : Z) (name : string) (value : pyval)
    : log_record :=
  {| log_name := name; log_value := value; log_logger := true;
     log_batch_size := size;
     on_step := false; on_epoch := true; sync_dist := true |}.

(** The pair of a named sub-loss. *)
Definition subloss_records (size : Z) (mode : Mode)
    (item : string * pyval) : list log_record :=
  [ step_record size
      (Mode_value mode +:+ "/loss/" +:+ item.1 +:+ "/step") item.2;
    epoch_record size
      (Mode_value mode +:+ "/loss/" +:+ item.1 +:+ "/epoch") item.2 ].

(** The pair of a named metric. *)
Definition metric_records (size : Z) (mode : Mode)
    (item : string * pyval) : list log_record :=
  [ step_record size
      (Mode_value mode +:+ "/metrics/" +:+ item.1 +:+ "/step") item.2;
    epoch_record size
      (Mode_value mode +:+ "/metrics/" +:+ item.1 +:+ "/epoch") item.2 ].

Definition loss_records (size : Z) (mode : Mode) (loss : pyval)
    : list log_record :=
  match loss with
  | PNone => []
  | PObj _ =>
      [ step_record size (Mode_value mode +:+ "/loss/step") loss;
        epoch_record size (Mode_value mode +:+ "/loss/epoch") loss ]
  | PDict d => flat_map (subloss_records size mode) d
  end.

Definition metrics_records (size : Z) (mode : Mode) (metrics : pyval)
    : list log_record :=
  match metrics with
  | PDict d => flat_map (metric_records size mode) d
  | _ => []
  end.

(** The record of an optimizer statistic. *)
Definition optimizer_record (size : Z) (mode : Mode)
    (item : string * pyval) : log_record :=
  epoch_record size (Mode_value mode +:+ "/" +:+ item.1) item.2.

(** The records of the optimizer statistics: in train mode, for the batch
    of index 0. *)
Definition optimizer_records (size : Z) (self : System) (mode : Mode)
    (batch_idx : Z) : list log_record :=
  if bool_decide (mode = TRAIN) && (batch_idx =? 0) then
    match get_optimizer_stats (optimizer self) with
    | Ok stats => optimizer_record size mode <$> stats
    | Raise _ => []
    end
  else [].

(** Something is logged for the loss or the metrics: a scalar, or a
    mapping that is not empty. *)
Definition has_records (v : pyval) : bool :=
  match v with
  | PNone => false
  | PObj _ => true
  | PDict [] => false
  | PDict (_ :: _) => true
  end.

(** The value that the inferer ends with. *)
Fixpoint inference_value (self : System) (i : inference) : pyval :=
  match i with
  | Predicted pred => pred
  | CallSystem input k => inference_value self (k (forward_value self input))
  end.

(** The calls of the model that the inferer makes. *)
Fixpoint inference_calls (self : System) (i : inference) : list event :=
  match i with
  | Predicted _ => []
  | CallSystem input k =>
      EvModel input (forward_kwargs self).1 (forward_kwargs self).2
        :: inference_calls self (k (forward_value self input))
  end.

(** The value that the forward phase of [_step] computes. *)
Definition pred_value (self : System) (mode : Mode) (input : pyval) : pyval :=
  match inferer self with
  | Some inferer_fn =>
      if bool_decide (mode = VAL \/ mode = TEST \/ mode = PREDICT)
      then inference_value self (inferer_fn input)
      else forward_value self input
  | None => forward_value self input
  end.

(** The calls that the forward phase of [_step] makes: the call of the
    model, or the call of the inferer and, inside it, the calls of the
    model that the inferer makes. *)
Definition pred_events (self : System) (mode : Mode) (input : pyval)
    : list event :=
  let model_call :=
    EvModel input (forward_kwargs self).1 (forward_kwargs self).2 in
  match inferer self with
  | Some inferer_fn =>
      if bool_decide (mode = VAL \/ mode = TEST \/ mode = PREDICT)
      then EvInferer input :: inference_calls self (inferer_fn input)
      else [model_call]
  | None => [model_call]
  end.

(** An event of loss or metric computation, or a log record. *)
Definition computes_or_logs (ev : event) : bool :=
  match ev with
  | EvCriterion _ _ _ | EvMetrics _ _ _ | EvLog _ => true
  | _ => false
  end.

Definition is_log (ev : event) : bool :=
  match ev with EvLog _ => true | _ => false end.

(** [None] or a mapping. *)
Definition mapping_or_None (v : pyval) : bool :=
  is_None v || isinstance_dict v.

(** A record is either a step-level one, not synchronised, or an
    epoch-level one, synchronised. *)
Definition sync_ok (ev : event) : Prop :=
  forall r, ev = EvLog r ->
    sync_dist r = on_epoch r /\ on_step r = negb (on_epoch r).

(** The head of the message of a rejected batch. *)
Definition schema_msg : string :=
  "Batch must be a dict with keys: 'input', 'target' (optional), 'id' (optional).".

Definition nl : string := String "010"%char EmptyString.


(** The [try] block at the head of [_step]: build the [Batch], and raise
    a [TypeError] or a [ValueError] again, in its own class, under the
    message that gives the schema. *)
Definition validate_batch (batch : gmap string pyval) : M event Batch :=
  match Batch_new batch with
  | Ok b => ret b
  | Raise e =>
      if bool_decide (exn_cls e = TypeError \/ exn_cls e = ValueError) then
        raise (Exn (exn_cls e) (schema_msg +:+ nl +:+ "Error: " +:+ exn_msg e))
      else raise e
  end.

(** [self.criterion(input=input, pred=pred, target=target)] *)
Definition call_criterion (self : System) (input pred target : pyval)
    : M event pyval :=
  match criterion self with
  | None => raise (Exn TypeError "'NoneType' object is not callable")
  | Some f => emit (EvCriterion input pred target) ;; ret (f input pred target)
  end.

(** [v[k]] *)
Definition getitem (v : pyval) (k : string) : M event pyval :=
  match v with
  | PDict d =>
      match dict_get k d with
      | Some x => ret x
      | None => raise (Exn KeyError k)
      end
  | _ => raise (Exn TypeError "object is not subscriptable")
  end.

Definition total_msg : string :=
  "The loss dictionary must include a 'total' key that combines all sublosses. "
  +:+ "Example: {'total': combined_loss, 'subloss1': loss1, ...}".

(** [isinstance(loss, dict) and "total" not in loss] *)
Definition lacks_total (loss : pyval) : bool :=
  match loss with
  | PDict d => negb (dict_has "total" d)
  | _ => false
  end.

(** [System._step] *)
Definition _step (self : System) (batch : gmap string pyval) (batch_idx : Z)
    (mode : Mode) : M event (gmap string pyval) :=
  (* Validate the batch structure. *)
  batch <- validate_batch batch ;;
  let id := batch_id batch in
  let input := batch_input batch in
  let target := batch_target batch in
  (* Forward *)
  pred <- (match inferer self with
           | Some inferer_fn =>
               if bool_decide (mode = VAL \/ mode = TEST \/ mode = PREDICT)
               then emit (EvInferer input) ;;
                    run_inference self (inferer_fn input)
               else forward self input
           | None => forward self input
           end) ;;
  (* Predict mode stops here. *)
  if bool_decide (mode = PREDICT) then
    ret {[ Data_PRED := pred; Data_ID := id ]}
  else
    (* Calculate the loss. *)
    loss <- (if bool_decide (mode = TRAIN \/ mode = VAL)
             then call_criterion self input pred target
             else ret PNone) ;;
    (* Calculate the step metrics. *)
    metrics <- (match metrics self mode with
                | Some (Some metric_fn) =>
                    emit (EvMetrics mode pred target) ;;
                    ret (metric_fn pred target)
                | _ => ret PNone
                end) ;;
    (* Ensure that a dict of losses has a 'total' key. *)
    (if lacks_total loss then raise (Exn ValueError total_msg) else ret tt) ;;
    (* Logging *)
    _log_stats self loss metrics mode batch_idx ;;
    (* Return the loss and the other data. *)
    loss_out <- (if isinstance_dict loss then getitem loss "total"
                 else ret loss) ;;
    ret {[ "loss" := loss_out; "metrics" := metrics; Data_INPUT := input;
           Data_TARGET := target; Data_PRED := pred; Data_ID := id ]}.

(** *** The step of a valid batch, in closed form *)

(** The value of the metrics phase of [_step]. *)
Definition metrics_value (self : System) (mode : Mode) (pred target : pyval)
    : pyval :=
  match metrics self mode with
  | Some (Some metric_fn) => metric_fn pred target
  | _ => PNone
  end.

(** The call that the metrics phase of [_step] makes, if any. *)
Definition metrics_event (self : System) (mode : Mode) (pred target : pyval)
    : list event :=
  match metrics self mode with
  | Some (Some _) => [EvMetrics mode pred target]
  | _ => []
  end.

(** The mapping that a step other than a predict step returns. *)
Definition step_result (b : Batch) (pred loss metrics : pyval)
    : gmap string pyval :=
  {[ "loss" := loss; "metrics" := metrics; "input" := batch_input b;
     "target" := batch_target b; "pred" := pred; "id" := batch_id b ]}.

(** The step from the loss on: the metrics, the check of the loss, the
    logging and the result. *)
Definition step_finish (self : System) (b : Batch) (batch_idx : Z)
    (mode : Mode) (pred loss : pyval) : M event (gmap string pyval) :=
  let metrics := metrics_value self mode pred (batch_target b) in
  let calls := metrics_event self mode pred (batch_target b) in
  if lacks_total loss then (calls, Raise (Exn ValueError total_msg))
  else
    let logged := _log_stats self loss metrics mode batch_idx in
    (calls ++ trace logged,
     match outcome logged with
     | Raise e => Raise e
     | Ok _ =>
         match loss with
         | PDict d =>
             match dict_get "total" d with
             | Some total => Ok (step_result b pred total metrics)
             | None => Raise (Exn KeyError "total")
             end
         | _ => Ok (step_result b pred loss metrics)
         end
     end).

Definition not_callable : exn :=
  Exn TypeError "'NoneType' object is not callable".

(** ** The [learning_rate] property *)

Definition multi_group_msg : string :=
  "The learning rate is not available when there are multiple optimizer parameter groups.".

Definition no_param_groups : exn :=
  Exn AttributeError "'NoneType' object has no attribute 'param_groups'".

(** [self.optimizer = opt] *)
Definition set_optimizer (self : System) (opt : Optimizer) : System :=
  {| model := model self; criterion := criterion self;
     optimizer := Some opt; scheduler := scheduler self;
     inferer := inferer self; metrics := metrics self;
     trainer := trainer self; current_epoch := current_epoch self;
     global_step := global_step self; batch_size := batch_size self |}.

(** The getter of [System.learning_rate]. *)
Definition learning_rate (self : System) : result pyval :=
  match optimizer self with
  | None => Raise no_param_groups
  | Some opt =>
      if bool_decide (1 < length (param_groups opt))%nat then
        Raise (Exn ValueError multi_group_msg)
      else
        match param_groups opt !! 0%nat with
        | None => Raise (Exn IndexError "list index out of range")
        | Some group =>
            match group !! "lr" with
            | Some lr => Ok lr
            | None => Raise (Exn KeyError "lr")
            end
        end
  end.

(** The setter of [System.learning_rate].  It changes a parameter group of
    the optimizer in place: the system after the call is returned with the
    outcome. *)
Definition learning_rate_setter (self : System) (value : pyval)
    : result unit * System :=
  match optimizer self with
  | None => (Raise no_param_groups, self)
  | Some opt =>
      if bool_decide (1 < length (param_groups opt))%nat then
        (Raise (Exn ValueError multi_group_msg), self)
      else
        match param_groups opt !! 0%nat with
        | None => (Raise (Exn IndexError "list index out of range"), self)
        | Some group =>
            (Ok tt,
             set_optimizer self
               {| param_groups :=
                    <[0%nat := <["lr" := value]> group]> (param_groups opt) |})
        end
  end.


(** ** [configure_optimizers] *)

(** An entry of the dictionary that [configure_optimizers] returns. *)
Inductive optimizer_config :=
  | CfgOptimizer (o : Optimizer)
  | CfgScheduler (s : pyval).

Definition optimizer_missing_msg : string :=
  "Please specify 'system.optimizer' in the config.".

(** [System.configure_optimizers] *)
Definition configure_optimizers (self : System)
    : result (gmap string optimizer_config) :=
  match optimizer self with
  | None => Raise (Exn ValueError optimizer_missing_msg)
  | Some opt =>
      match scheduler self with
      | None => Ok {[ "optimizer" := CfgOptimizer opt ]}
      | Some sch =>
          Ok {[ "optimizer" := CfgOptimizer opt;
                "lr_scheduler" := CfgScheduler sch ]}
      end
  end.

(** *** Vocabulary for the properties of the step *)

(** [self.criterion = c] *)
Definition with_criterion (self : System)
    (c : option (pyval -> pyval -> pyval -> pyval)) : System :=
  {| model := model self; criterion := c;
     optimizer := optimizer self; scheduler := scheduler self;
     inferer := inferer self; metrics := metrics self;
     trainer := trainer self; current_epoch := current_epoch self;
     global_step := global_step self; batch_size := batch_size self |}.

(** [self.batch_size = size], done from outside of [lighter/system.py]. *)
Definition with_batch_size (self : System) (size : Z) : System :=
  {| model := model self; criterion := criterion self;
     optimizer := optimizer self; scheduler := scheduler self;
     inferer := inferer self; metrics := metrics self;
     trainer := trainer self; current_epoch := current_epoch self;
     global_step := global_step self; batch_size := Some size |}.

(** A call of the model or of the inferer. *)
Definition is_forward_call (ev : event) : bool :=
  match ev with
  | EvModel _ _ _ | EvInferer _ => true
  | _ => false
  end.

(** The name of a log record starts with the mode. *)
Definition named_by_mode (mode : Mode) (ev : event) : Prop :=
  forall r, ev = EvLog r ->
    String.prefix (Mode_value mode +:+ "/") (log_name r) = true.

End Lighter.

Arguments pyval tensor : clear implicits.
Arguments Batch tensor : clear implicits.
Arguments System tensor : clear implicits.
Arguments Optimizer tensor : clear implicits.
Arguments Module_ tensor : clear implicits.
Arguments log_record tensor : clear implicits.
Arguments event tensor : clear implicits.
Arguments inference tensor : clear implicits.
Arguments optimizer_config tensor : clear implicits.

(** * The command line ([lighter/cli.py]) *)

Module Cli.

(** The names that [interface] binds [run_trainer_method] to. *)
Inductive TrainerMethod := fit | validate | predict | test | tune.

(** A keyword argument given on the command line. *)
Inductive cli_value :=
  | VStr (s : string)
  | VSeq (l : list string).

(** [monai.utils.misc.ensure_tuple] *)
Definition ensure_tuple (v : cli_value) : list string :=
  match v with
  | VStr s => [s]
  | VSeq l => l
  end.

Inductive event :=
  | EvOpen (path : string)
  | EvLoggerError (msg : string)
  | EvImport (name path : string)
  | EvRun (name : TrainerMethod) (kwargs : gmap string cli_value).

Definition project_msg : string :=
  "`project` must be specified in one config only.".

(** [sys.exit()] *)
Definition sys_exit {A} : M event A := raise (Exn SystemExit EmptyString).

Definition is_error (ev : event) : bool :=
  match ev with EvLoggerError _ => true | _ => false end.

Definition is_import (ev : event) : bool :=
  match ev with EvImport _ _ => true | _ => false end.

Definition is_run (ev : event) : bool :=
  match ev with EvRun _ _ => true | _ => false end.

(** The number of events of a kind in a trace. *)
Definition count (kind : event -> bool) (t : list event) : nat :=
  length (List.filter kind t).

Section Run.

(** The parsed content of the YAML files on disk; [None] for a path that
    cannot be opened. *)
Variable files : string -> option (gmap string string).

(** [yaml.safe_load(open(config))] *)
Definition safe_load_open (path : string) : M event (gmap string string) :=
  emit (EvOpen path) ;;
  match files path with
  | Some config => ret config
  | None => raise (Exn FileNotFoundError path)
  end.

(** The loop of [run_trainer_method] over the config files, from the state
    [project_imported] on; it returns the final [project_imported]. *)
Fixpoint load_configs (configs : list string) (project_imported : bool)
    : M event bool :=
  match configs with
  | [] => ret project_imported
  | config :: configs' =>
      config <- safe_load_open config ;;
      project_imported <-
        (* Import the project as a module *)
        (match config !! "project" with
         | Some path =>
             (* Only one config file can specify the project path *)
             (if project_imported then
                emit (EvLoggerError project_msg) ;; sys_exit
              else ret tt) ;;
             emit (EvImport "project" path) ;;
             ret true
         | None => ret project_imported
         end) ;;
      load_configs configs' project_imported
  end.

(** [run_trainer_method].  The call of [monai.bundle.run], which builds the
    objects of the configuration and runs the method, is the event
    [EvRun]. *)
Definition run_trainer_method (name : TrainerMethod)
    (kwargs : gmap string cli_value) : M event unit :=
  (match kwargs !! "config_file" with
   | Some config_file =>
       load_configs (ensure_tuple config_file) false ;; ret tt
   | None => ret tt
   end) ;;
  (* Run the Trainer method *)
  emit (EvRun name kwargs).

(** The config files of an invocation. *)
Definition config_files (kwargs : gmap string cli_value) : list string :=
  match kwargs !! "config_file" with
  | Some config_file => ensure_tuple config_file
  | None => []
  end.

(** The file can be opened. *)
Definition readable (path : string) : bool :=
  match files path with Some _ => true | None => false end.

(** The file declares the key [project]. *)
Definition declares_project (path : string) : bool :=
  match files path with
  | Some config =>
      match config !! "project" with Some _ => true | None => false end
  | None => false
  end.

(** The number of files that declare [project]. *)
Definition declared (configs : list string) : nat :=
  length (List.filter declares_project configs).

End Run.

End Cli.

(** * The schema of the [args] section ([lighter/utils/schema.py]) *)

Module Schema.

(** [", ".join(l)] *)
Fixpoint join (sep : string) (l : list string) : string :=
  match l with
  | [] => EmptyString
  | [x] => x
  | x :: l' => x +:+ sep +:+ join sep l'
  end.

(** [str(keys)] for a list of strings without quotes or escapes. *)
Definition repr_list (keys : list string) : string :=
  "[" +:+ join ", " (map (fun key => "'" +:+ key +:+ "'") keys) +:+ "]".

Definition prohibited_keys : list string :=
  ["model"; "train_loaders"; "validation_loaders"; "dataloaders";
   "datamodule"].

Definition prohibited_msg (field : string) (found : list string) : string :=
  "Found the following prohibited argument(s) in 'args#" +:+ field +:+ "': "
  +:+ repr_list found
  +:+ ". Model and datasets should be defined within the 'system'.".

Section Args.

(** The values of the arguments. *)
Context {A : Type}.

Record ArgsConfigSchema := mkArgs {
  fit : gmap string A;
  validate : gmap string A;
  predict : gmap string A;
  lr_find : gmap string A;
  scale_batch_size : gmap string A
}.

(** [self.model_fields], in the order of declaration, each with
    [getattr(self, field)]. *)
Definition model_fields
    : list (string * (ArgsConfigSchema -> gmap string A)) :=
  [ ("fit", fit); ("validate", validate); ("predict", predict);
    ("lr_find", lr_find); ("scale_batch_size", scale_batch_size) ].

(** [[key for key in prohibited_keys if key in d]] *)
Definition found_keys (d : gmap string A) : list string :=
  List.filter (fun key => bool_decide (is_Some (d !! key))) prohibited_keys.

(** The body of the loop of [check_prohibited_args]. *)
Definition check_field (self : ArgsConfigSchema)
    (field : string * (ArgsConfigSchema -> gmap string A))
    : M Empty_set unit :=
  match found_keys (field.2 self) with
  | [] => ret tt
  | found => raise (Exn ValueError (prohibited_msg field.1 found))
  end.

(** [ArgsConfigSchema.check_prohibited_args] *)
Definition check_prohibited_args (self : ArgsConfigSchema)
    : result ArgsConfigSchema :=
  match outcome (for_each model_fields (check_field self)) with
  | Ok _ => Ok self
  | Raise e => Raise e
  end.

End Args.

Arguments ArgsConfigSchema A : clear implicits.

End Schema.

(** * The setup of the earlier system ([lightningbringer/system.py]) *)

Module Lightningbringer.

(** What an attribute that holds a method is bound to. *)
Inductive method :=
  | Inherited                             (* the method of [LightningModule] *)
  | Placeholder                           (* [lambda: None] *)
  | Partial (fn : string) (mode : string) (* [partial(self.fn, mode=mode)] *).

Inductive event :=
  | EvLoggerError (msg : string).

Section Setup.

(** Datasets are opaque. *)
Context {dataset : Type}.

(** The attributes of the system that [setup] reads and writes. *)
Record System := mkSystem {
  train_dataset : option dataset;
  val_dataset : option dataset;
  test_dataset : option dataset;
  train_dataloader : method;
  training_step : method;
  val_dataloader : method;
  validation_step : method;
  test_dataloader : method;
  test_step : method
}.

(** The method attributes as [System.__init__] leaves them. *)
Definition after_init (train val test : option dataset) : System :=
  {| train_dataset := train; val_dataset := val; test_dataset := test;
     train_dataloader := Placeholder; training_step := Placeholder;
     val_dataloader := Inherited; validation_step := Inherited;
     test_dataloader := Inherited; test_step := Inherited |}.

Definition dataset_required_by_stage : gmap string string :=
  {[ "fit" := "train_dataset"; "validate" := "val_dataset";
     "test" := "test_dataset" ]}.

(** [getattr(self, dataset_name)] for the three names of the table. *)
Definition getattr_dataset (self : System) (dataset_name : string)
    : option dataset :=
  if String.eqb dataset_name "train_dataset" then train_dataset self
  else if String.eqb dataset_name "val_dataset" then val_dataset self
  else test_dataset self.

Definition missing_msg (dataset_name : string) : string :=
  "Please specify '" +:+ dataset_name +:+ "' in the config. Exiting.".

Definition set_train (self : System) : System :=
  {| train_dataset := train_dataset self; val_dataset := val_dataset self;
     test_dataset := test_dataset self;
     train_dataloader := Partial "_dataloader" "train";
     training_step := Partial "_step" "train";
     val_dataloader := val_dataloader self;
     validation_step := validation_step self;
     test_dataloader := test_dataloader self; test_step := test_step self |}.

Definition set_val (self : System) : System :=
  {| train_dataset := train_dataset self; val_dataset := val_dataset self;
     test_dataset := test_dataset self;
     train_dataloader := train_dataloader self;
     training_step := training_step self;
     val_dataloader := Partial "_dataloader" "val";
     validation_step := Partial "_step" "val";
     test_dataloader := test_dataloader self; test_step := test_step self |}.

Definition set_test (self : System) : System :=
  {| train_dataset := train_dataset self; val_dataset := val_dataset self;
     test_dataset := test_dataset self;
     train_dataloader := train_dataloader self;
     training_step := training_step self;
     val_dataloader := val_dataloader self;
     validation_step := validation_step self;
     test_dataloader := Partial "_dataloader" "test";
     test_step := Partial "_step" "test" |}.

(** [System.setup]: the events and the outcome, and the system after the
    call. *)
Definition setup (self : System) (stage : string) : M event unit * System :=
  match dataset_required_by_stage !! stage with
  | None => (raise (Exn KeyError stage), self)
  | Some dataset_name =>
      match getattr_dataset self dataset_name with
      | None =>
          (emit (EvLoggerError (missing_msg dataset_name)) ;;
           raise (Exn SystemExit EmptyString), self)
      | Some _ =>
          (* Training methods. *)
          let self :=
            if String.eqb stage "fit" then set_train self else self in
          (* Validation methods. *)
          let self :=
            if String.eqb stage "validate"
               || (String.eqb stage "fit"
                   && match val_dataset self with
                      | Some _ => true
                      | None => false
                      end)
            then set_val self else self in
          (* Test methods. *)
          let self :=
            if String.eqb stage "test" then set_test self else self in
          (ret tt, self)
      end
  end.

End Setup.

Arguments System dataset : clear implicits.

End Lightningbringer.

(** * Examples *)

Module Examples.

(** Tensors are numbered. *)
Abbreviation value := (pyval Z).

(** A stand-in for [get_optimizer_stats]: the learning rate of each
    parameter group that has one. *)
Definition stats (opt : option (Optimizer Z))
    : result (list (string * value)) :=
  match opt with
  | Some o =>
      Ok (flat_map
            (fun group : gmap string value =>
               match group !! "lr" with
               | Some lr => [("optimizer/SGD/lr", lr)]
               | None => []
               end)
            (param_groups o))
  | None => Raise no_param_groups
  end.

(** A model that adds one to its input. *)
Definition net : Module_ Z :=
  {| forward_fn := fun x _ _ =>
       match x with PObj t => PObj (t + 1) | _ => x end;
     hasarg_epoch := true; hasarg_step := false |}.

Definition sgd (groups : list (gmap string value)) : Optimizer Z :=
  {| param_groups := groups |}.

(** A system as [System.__init__] builds it, without metrics and inferer,
    attached to a trainer: it has no [batch_size]. *)
Definition system_with
    (crit : option (value -> value -> value -> value))
    (opt : option (Optimizer Z)) (lg : option string) : System Z :=
  {| model := net; criterion := crit; optimizer := opt;
     scheduler := None; inferer := None; metrics := fun _ => None;
     trainer := {| logger := lg |};
     current_epoch := 0; global_step := 0; batch_size := None |}.

(** The loss of the scenario of the spec: [{"total": 5, "aux": 2}]. *)
Definition two_losses : value := PDict [("total", PObj 5); ("aux", PObj 2)].

Definition one_group : Optimizer Z := sgd [ {[ "lr" := PObj 3 ]} ].
Definition two_groups : Optimizer Z :=
  sgd [ {[ "lr" := PObj 3 ]}; {[ "lr" := PObj 4 ]} ].

Definition sys : System Z :=
  system_with (Some (fun _ _ _ => two_losses)) (Some one_group) (Some "tb").

(** The same system once [batch_size] has been set on it from outside. *)
Definition sys_sized : System Z := with_batch_size sys 8.

Definition sys_no_total : System Z :=
  system_with (Some (fun _ _ _ => PDict [("aux", PObj 2)])) (Some one_group)
    (Some "tb").

Definition sys_no_criterion : System Z :=
  system_with None (Some one_group) (Some "tb").

Definition sys_no_logger : System Z :=
  system_with (Some (fun _ _ _ => two_losses)) (Some one_group) None.

Definition sys_two_groups : System Z :=
  system_with None (Some two_groups) None.

Definition batch : gmap string value :=
  {[ "input" := PObj 10; "target" := PObj 1 ]}.

Definition validated : Batch Z :=
  {| batch_id := PNone; batch_input := PObj 10; batch_target := PObj 1 |}.

(** Three config files, two of which declare [project]. *)
Definition disk (path : string) : option (gmap string string) :=
  if String.eqb path "a.yaml" then Some {[ "project" := "./a" ]}
  else if String.eqb path "b.yaml" then Some {[ "project" := "./b" ]}
  else if String.eqb path "c.yaml" then Some {[ "trainer" := "x" ]}
  else None.

(** A stand-in for a [get_optimizer_stats] that fails. *)
Definition stats_fail (opt : option (Optimizer Z))
    : result (list (string * value)) :=
  Raise (Exn KeyError "lr").

Definition sys_no_optimizer : System Z := system_with None None None.

Definition sys_no_groups : System Z :=
  system_with None (Some (sgd [])) None.

Definition sys_no_lr : System Z :=
  system_with None (Some (sgd [ {[ "momentum" := PObj 1 ]} ])) None.

(** A system with an inferer, which calls the system on the input and
    then on what that gave. *)
Definition sys_inferer : System Z :=
  {| model := net; criterion := Some (fun _ _ _ => two_losses);
     optimizer := Some one_group; scheduler := None;
     inferer := Some (fun x =>
                        CallSystem x (fun y =>
                        CallSystem y (fun z => Predicted z)));
     metrics := fun _ => None;
     trainer := {| logger := None |};
     current_epoch := 0; global_step := 0; batch_size := None |}.

(** A system with metrics in every mode and a loss without ["total"]. *)
Definition sys_metrics_no_total : System Z :=
  {| model := net;
     criterion := Some (fun _ _ _ => PDict [("aux", PObj 2)]);
     optimizer := Some one_group; scheduler := None; inferer := None;
     metrics := fun _ => Some (Some (fun _ _ => PDict [("acc", PObj 1)]));
     trainer := {| logger := Some "tb" |};
     current_epoch := 0; global_step := 0; batch_size := None |}.

(** Arguments that the schema accepts. *)
Definition args_ok : Schema.ArgsConfigSchema Z :=
  Schema.mkArgs {[ "ckpt_path" := 0 ]} ∅ ∅ ∅ ∅.

(** Arguments with prohibited keys under [validate] and [predict]. *)
Definition args_bad : Schema.ArgsConfigSchema Z :=
  Schema.mkArgs {[ "ckpt_path" := 0 ]}
    {[ "datamodule" := 1; "model" := 2; "verbose" := 3 ]}
    {[ "dataloaders" := 4 ]} ∅ ∅.

(** An earlier system with a training dataset only. *)
Definition lb_sys : Lightningbringer.System Z :=
  Lightningbringer.after_init (Some 1) None None.

End Examples.

(** * Properties of the system *)

Section LighterFacts.

Context {tensor : Type}.
Variable get_optimizer_stats :
  option (Optimizer tensor) -> result (list (string * pyval tensor)).

Local Abbreviation log_stats := (_log_stats get_optimizer_stats).
Local Abbreviation step := (_step get_optimizer_stats).
Local Abbreviation finish := (step_finish get_optimizer_stats).
Local Abbreviation opt_records := (optimizer_records get_optimizer_stats).

Implicit Types (self : System tensor) (loss metrics value : pyval tensor).
Implicit Types (mode : Mode) (batch : gmap string (pyval tensor)).
Implicit Types (batch_idx : Z) (b : Batch tensor).

(** ** Traces *)

Lemma bind_ret_l {E A B} (a : A) (k : A -> M E B) :
  bind ([], Ok a) k = k a.
Proof. unfold bind. destruct (k a) as [t r]. reflexivity. Qed.

Lemma trace_bind_Forall {E A B} (P : E -> Prop) (m : M E A) (k : A -> M E B) :
  Forall P (trace m) ->
  (forall a, Forall P (trace (k a))) ->
  Forall P (trace (bind m k)).
Proof.
  intros Hm Hk. destruct m as [t [a|e]]; simpl in *; [|exact Hm].
  specialize (Hk a). destruct (k a) as [t' r]. simpl in *.
  apply Forall_app. split; assumption.
Qed.

Lemma for_each_Forall {E A} (P : E -> Prop) (l : list A) (body : A -> M E unit) :
  (forall x, Forall P (trace (body x))) ->
  Forall P (trace (for_each l body)).
Proof.
  intros Hb. induction l as [|x l IH]; simpl.
  - constructor.
  - apply trace_bind_Forall; [apply Hb | intros _; exact IH].
Qed.

(** A loop whose body only logs. *)
Lemma for_each_logs {A} (g : A -> list (log_record tensor))
    (l : list A) (body : A -> M (event tensor) unit) :
  (forall x, body x = (EvLog <$> g x, Ok tt)) ->
  for_each l body = (EvLog <$> flat_map g l, Ok tt).
Proof.
  intros Hb. induction l as [|x l IH]; simpl; [reflexivity|].
  rewrite Hb, IH. simpl. rewrite fmap_app. reflexivity.
Qed.

(** ** The stats logger *)

Lemma log_sized self size name value (s e : bool) :
  batch_size self = Some size ->
  _log self name value s e
  = ([EvLog {| log_name := name; log_value := value; log_logger := true;
               log_batch_size := size; on_step := s; on_epoch := e;
               sync_dist := e |}], Ok tt).
Proof. unfold _log. intros ->. reflexivity. Qed.

Lemma log_unsized self name value (s e : bool) :
  batch_size self = None ->
  _log self name value s e = ([], Raise no_batch_size).
Proof. unfold _log. intros ->. reflexivity. Qed.

Lemma log_pair_loss self size mode (x : string * pyval tensor) :
  batch_size self = Some size ->
  (let '(name, subloss) := x in
   _log self (Mode_value mode +:+ "/loss/" +:+ name +:+ "/step")
     subloss true false ;;
   _log self (Mode_value mode +:+ "/loss/" +:+ name +:+ "/epoch")
     subloss false true)
  = (EvLog <$> subloss_records size mode x, Ok tt).
Proof.
  intros Hs. destruct x as [name v]. rewrite !(log_sized _ _ _ _ _ _ Hs).
  reflexivity.
Qed.

Lemma log_pair_metric self size mode (x : string * pyval tensor) :
  batch_size self = Some size ->
  (let '(name, metric) := x in
   _log self (Mode_value mode +:+ "/metrics/" +:+ name +:+ "/step")
     metric true false ;;
   _log self (Mode_value mode +:+ "/metrics/" +:+ name +:+ "/epoch")
     metric false true)
  = (EvLog <$> metric_records size mode x, Ok tt).
Proof.
  intros Hs. destruct x as [name v]. rewrite !(log_sized _ _ _ _ _ _ Hs).
  reflexivity.
Qed.

Lemma log_optimizer_stat self size mode (x : string * pyval tensor) :
  batch_size self = Some size ->
  (let '(name, optimizer_stat) := x in
   _log self (Mode_value mode +:+ "/" +:+ name) optimizer_stat false true)
  = (EvLog <$> [optimizer_record size mode x], Ok tt).
Proof.
  intros Hs. destruct x as [name v]. rewrite (log_sized _ _ _ _ _ _ Hs).
  reflexivity.
Qed.

Lemma flat_map_singleton {A B} (f : A -> B) (l : list A) :
  flat_map (fun x => [f x]) l = f <$> l.
Proof. induction l as [|x l IH]; simpl; [|rewrite IH]; reflexivity. Qed.

(** With a logging backend, a [batch_size] and well-typed metrics, the
    records of a call are those of the loss, then those of the metrics,
    then those of the optimizer. *)
Lemma log_stats_trace self size loss metrics mode batch_idx lg :
  logger (trainer self) = Some lg ->
  batch_size self = Some size ->
  mapping_or_None metrics = true ->
  trace (log_stats self loss metrics mode batch_idx)
  = EvLog <$> (loss_records size mode loss
               ++ metrics_records size mode metrics
               ++ opt_records size self mode batch_idx).
Proof.
  intros Hlg Hs Hm. unfold _log_stats, optimizer_records. rewrite Hlg.
  destruct (bool_decide (mode = TRAIN) && (batch_idx =? 0));
    [destruct (get_optimizer_stats (optimizer self)) as [stats|e]|];
    (destruct metrics as [|t|dm]; try discriminate Hm);
    destruct loss as [|t|dl];
    cbn [negb is_None isinstance_dict items loss_records metrics_records];
    rewrite ?(log_sized _ _ _ _ _ _ Hs);
    unfold trace, lift, bind, ret;
    repeat first
      [ rewrite (for_each_logs (subloss_records size mode))
          by (intros; apply log_pair_loss; exact Hs)
      | rewrite (for_each_logs (metric_records size mode))
          by (intros; apply log_pair_metric; exact Hs)
      | rewrite (for_each_logs (fun x => [optimizer_record size mode x]))
          by (intros; apply log_optimizer_stat; exact Hs) ];
    simpl; rewrite ?flat_map_singleton, ?fmap_app, ?app_nil_r; reflexivity.
Qed.

(** Whatever holds of each call of [_log] that [_log_stats] can make holds
    of its trace. *)
Lemma log_stats_each (P : event tensor -> Prop) self loss metrics mode
    batch_idx :
  (forall rest value (s e : bool),
     s = negb e ->
     Forall P (trace (_log self (Mode_value mode +:+ "/" +:+ rest) value s e))) ->
  Forall P (trace (log_stats self loss metrics mode batch_idx)).
Proof.
  intros Hlog. unfold _log_stats.
  destruct (logger (trainer self)); [|constructor].
  apply trace_bind_Forall; [|intros _; apply trace_bind_Forall; [|intros _]].
  - destruct loss; cbn [negb is_None isinstance_dict items];
      repeat first
        [ apply (Hlog "loss/step"); reflexivity
        | apply (Hlog "loss/epoch"); reflexivity
        | apply (Hlog ("loss/" +:+ _ +:+ "/step")); reflexivity
        | apply (Hlog ("loss/" +:+ _ +:+ "/epoch")); reflexivity
        | apply for_each_Forall; intros [? ?]
        | apply trace_bind_Forall; [|intros ?]
        | solve [constructor] ].
  - destruct metrics; cbn [negb is_None isinstance_dict items];
      repeat first
        [ apply (Hlog ("metrics/" +:+ _ +:+ "/step")); reflexivity
        | apply (Hlog ("metrics/" +:+ _ +:+ "/epoch")); reflexivity
        | apply for_each_Forall; intros [? ?]
        | apply trace_bind_Forall; [|intros ?]
        | solve [constructor] ].
  - destruct (bool_decide (mode = TRAIN) && (batch_idx =? 0)); [|constructor].
    apply trace_bind_Forall; [|intros stats].
    + destruct (get_optimizer_stats (optimizer self)); constructor.
    + apply for_each_Forall. intros [name v]. apply (Hlog name). reflexivity.
Qed.

Lemma log_sync_ok self name value (s e : bool) :
  s = negb e -> Forall sync_ok (trace (_log self name value s e)).
Proof.
  intros ->. unfold _log. destruct (batch_size self); [|constructor].
  repeat constructor; injection H as <-; reflexivity.
Qed.

Lemma log_stats_sync_ok self loss metrics mode batch_idx :
  Forall sync_ok (trace (log_stats self loss metrics mode batch_idx)).
Proof. apply log_stats_each. intros. apply log_sync_ok. assumption. Qed.

(** Without [batch_size] no record is logged. *)
Lemma log_stats_unsized_trace self loss metrics mode batch_idx :
  batch_size self = None ->
  trace (log_stats self loss metrics mode batch_idx) = [].
Proof.
  intros Hs.
  assert (H : Forall (fun _ => False)
                (trace (log_stats self loss metrics mode batch_idx))).
  { apply log_stats_each. intros. rewrite (log_unsized _ _ _ _ _ Hs).
    constructor. }
  destruct (trace (log_stats self loss metrics mode batch_idx));
    [reflexivity|]. inversion H. contradiction.
Qed.

(** Without [batch_size] the first record to log raises. *)
Lemma log_stats_unsized_raises self loss metrics mode batch_idx lg :
  logger (trainer self) = Some lg ->
  batch_size self = None ->
  (has_records loss = true ->
   log_stats self loss metrics mode batch_idx = ([], Raise no_batch_size))
  /\ (has_records loss = false -> isinstance_dict metrics = true ->
      has_records metrics = true ->
      log_stats self loss metrics mode batch_idx = ([], Raise no_batch_size))
  /\ (forall item stats,
        has_records loss = false -> mapping_or_None metrics = true ->
        has_records metrics = false ->
        mode = TRAIN -> batch_idx = 0 ->
        get_optimizer_stats (optimizer self) = Ok (item :: stats) ->
        log_stats self loss metrics mode batch_idx
        = ([], Raise no_batch_size)).
Proof.
  intros Hlg Hs. unfold _log_stats. rewrite Hlg.
  split; [|split].
  - destruct loss as [|t|[|[name v] dl]]; try discriminate;
      intros _; cbn [negb is_None isinstance_dict items for_each bind ret];
      rewrite ?(log_unsized _ _ _ _ _ Hs); reflexivity.
  - destruct loss as [|t|[|[name v] dl]]; try discriminate; intros _;
      (destruct metrics as [|t|[|[name v] dm]]; try discriminate;
       intros _ _);
      cbn [negb is_None isinstance_dict items for_each bind ret];
      rewrite ?(log_unsized _ _ _ _ _ Hs); reflexivity.
  - intros [name v] stats Hl Hm Hr -> -> Hst. rewrite Hst.
    destruct loss as [|t|[|x dl]]; try discriminate Hl;
      (destruct metrics as [|t|[|x dm]]; try discriminate Hr;
       try discriminate Hm);
      cbn [negb is_None isinstance_dict items for_each bool_decide
             decide_rel andb Z.eqb lift bind ret];
      rewrite ?(log_unsized _ _ _ _ _ Hs); reflexivity.
Qed.

(** C5: the records that [_log_stats] is written to log, and what becomes
    of them.  On a system that has a [batch_size], with a logging backend,
    a scalar loss gives exactly the two records [{mode}/loss/step] and
    [{mode}/loss/epoch], a mapping loss gives the pair
    [{mode}/loss/{name}/step], [{mode}/loss/{name}/epoch] for each of its
    entries, and each entry of the metrics mapping gives the pair
    [{mode}/metrics/{name}/step], [{mode}/metrics/{name}/epoch].  On a
    system without [batch_size], as [System.__init__] leaves it, none of
    them is logged: the first one raises an [AttributeError]. *)
Theorem log_stats_records self loss metrics mode batch_idx lg :
  logger (trainer self) = Some lg ->
  (batch_size self = None ->
   trace (log_stats self loss metrics mode batch_idx) = []
   /\ (has_records loss = true ->
       log_stats self loss metrics mode batch_idx
       = ([], Raise no_batch_size))
   /\ (has_records loss = false -> isinstance_dict metrics = true ->
       has_records metrics = true ->
       log_stats self loss metrics mode batch_idx
       = ([], Raise no_batch_size)))
  /\ (forall size,
      batch_size self = Some size ->
      mapping_or_None metrics = true ->
      exists loss_part metrics_part,
        trace (log_stats self loss metrics mode batch_idx)
        = EvLog <$> (loss_part ++ metrics_part
                     ++ opt_records size self mode batch_idx)
        /\ (forall t, loss = PObj t ->
              loss_part =
                [ step_record size (Mode_value mode +:+ "/loss/step") loss;
                  epoch_record size (Mode_value mode +:+ "/loss/epoch")
                    loss ])
        /\ (forall d, loss = PDict d ->
              loss_part =
                flat_map (fun item =>
                  [ step_record size
                      (Mode_value mode +:+ "/loss/" +:+ item.1 +:+ "/step")
                      item.2;
                    epoch_record size
                      (Mode_value mode +:+ "/loss/" +:+ item.1 +:+ "/epoch")
                      item.2 ])
                  d)
        /\ (loss = PNone -> loss_part = [])
        /\ (forall d, metrics = PDict d ->
              metrics_part =
                flat_map (fun item =>
                  [ step_record size
                      (Mode_value mode +:+ "/metrics/" +:+ item.1 +:+ "/step")
                      item.2;
                    epoch_record size
                      (Mode_value mode +:+ "/metrics/" +:+ item.1
                       +:+ "/epoch")
                      item.2 ])
                  d)
        /\ (metrics = PNone -> metrics_part = [])).
Proof.
  intros Hlg. split.
  - intros Hs. split; [apply log_stats_unsized_trace; exact Hs|].
    destruct (log_stats_unsized_raises self loss metrics mode batch_idx lg
                Hlg Hs) as (H1 & H2 & _).
    split; assumption.
  - intros size Hs Hm.
    exists (loss_records size mode loss), (metrics_records size mode metrics).
    split; [eapply log_stats_trace; eassumption|].
    repeat split; intros; subst; reflexivity.
Qed.

(** C6: what [_log_stats] does about synchronisation and the optimizer
    statistics.  Without a logging backend it does nothing and raises
    nothing.  Every record it logs on step is not synchronised and every
    record it logs on epoch is synchronised.  On a system that has a
    [batch_size], with metrics that are [None] or a mapping, the optimizer
    statistics are logged, synchronised, after the loss and metric records
    exactly when the mode is train and the batch index is 0.  But they are
    not logged on a system without [batch_size], as [System.__init__]
    leaves it, where logging raises an [AttributeError]; nor when the
    metrics are the tensor of a single metric, where [metrics.items()]
    raises first. *)
Theorem log_stats_sync self loss metrics mode batch_idx :
  (logger (trainer self) = None ->
     log_stats self loss metrics mode batch_idx = ([], Ok tt))
  /\ Forall sync_ok (trace (log_stats self loss metrics mode batch_idx))
  /\ (forall lg item stats,
        logger (trainer self) = Some lg -> batch_size self = None ->
        mode = TRAIN -> batch_idx = 0 ->
        get_optimizer_stats (optimizer self) = Ok (item :: stats) ->
        exists e,
          log_stats self loss metrics mode batch_idx = ([], Raise e)
          /\ exn_cls e = AttributeError)
  /\ (forall lg size t,
        logger (trainer self) = Some lg -> batch_size self = Some size ->
        metrics = PObj t ->
        exists e,
          log_stats self loss metrics mode batch_idx
          = (EvLog <$> loss_records size mode loss, Raise e)
          /\ exn_cls e = AttributeError)
  /\ (forall lg size,
      logger (trainer self) = Some lg -> batch_size self = Some size ->
      mapping_or_None metrics = true ->
      exists stats_part,
        trace (log_stats self loss metrics mode batch_idx)
        = (EvLog <$> (loss_records size mode loss
                      ++ metrics_records size mode metrics))
          ++ (EvLog <$> stats_part)
        /\ (mode = TRAIN /\ batch_idx = 0 ->
            forall stats, get_optimizer_stats (optimizer self) = Ok stats ->
              stats_part =
                (fun item =>
                   epoch_record size ("train/" +:+ item.1) item.2) <$> stats)
        /\ (~ (mode = TRAIN /\ batch_idx = 0) -> stats_part = [])
        /\ Forall (fun r => sync_dist r = true /\ on_epoch r = true)
             stats_part).
Proof.
  split; [|split; [|split; [|split]]].
  - intros Hlg. unfold _log_stats. rewrite Hlg. reflexivity.
  - apply log_stats_sync_ok.
  - intros lg item stats Hlg Hs -> -> Hst.
    destruct (log_stats_unsized_raises self loss metrics TRAIN 0 lg Hlg Hs)
      as (H1 & H2 & H3).
    destruct (has_records loss) eqn:Hl;
      [exists no_batch_size; split; [apply H1|]; reflexivity|].
    destruct metrics as [|t|dm].
    + exists no_batch_size. split; [eapply H3; eauto|reflexivity].
    + exists (Exn AttributeError "object has no attribute 'items'").
      split; [|reflexivity]. unfold _log_stats. rewrite Hlg.
      destruct loss as [|t'|[|x dl]]; try discriminate Hl; reflexivity.
    + destruct (has_records (PDict dm)) eqn:Hr;
        exists no_batch_size;
        (split; [|reflexivity]); [apply H2|eapply H3]; eauto.
  - intros lg size t Hlg Hs ->.
    exists (Exn AttributeError "object has no attribute 'items'").
    split; [|reflexivity]. unfold _log_stats. rewrite Hlg.
    destruct loss as [|t'|dl];
      cbn [negb is_None isinstance_dict items loss_records];
      rewrite ?(log_sized _ _ _ _ _ _ Hs); unfold bind, ret, raise;
      rewrite ?(for_each_logs (subloss_records size mode))
        by (intros; apply log_pair_loss; exact Hs);
      simpl; rewrite ?app_nil_r; reflexivity.
  - intros lg size Hlg Hs Hm. exists (opt_records size self mode batch_idx).
    split; [|split; [|split]].
    + rewrite (log_stats_trace _ _ _ _ _ _ lg Hlg Hs Hm).
      rewrite !fmap_app, app_assoc. reflexivity.
    + intros [-> ->] stats Hst. unfold optimizer_records. rewrite Hst.
      reflexivity.
    + intros Hn. unfold optimizer_records.
      destruct (bool_decide_reflect (mode = TRAIN)) as [->|]; [|reflexivity].
      destruct (Z.eqb_spec batch_idx 0) as [->|]; [|reflexivity].
      exfalso. apply Hn. split; reflexivity.
    + unfold optimizer_records.
      destruct (bool_decide (mode = TRAIN) && (batch_idx =? 0)); [|constructor].
      destruct (get_optimizer_stats (optimizer self)); [|constructor].
      apply Forall_fmap, Forall_true. intros x. split; reflexivity.
Qed.

(** ** The batch validator *)

Lemma Batch_new_raises batch e :
  Batch_new batch = Raise e -> exn_cls e = TypeError.
Proof.
  unfold Batch_new. destruct (batch !! "input"); [case_bool_decide|];
    intros [= <-]; reflexivity.
Qed.


Lemma validate_batch_ok batch b :
  Batch_new batch = Ok b -> validate_batch batch = ([], Ok b).
Proof. unfold validate_batch. intros ->. reflexivity. Qed.

Lemma validate_batch_raise batch e :
  Batch_new batch = Raise e ->
  validate_batch batch
  = ([], Raise (Exn TypeError
                  (schema_msg +:+ nl +:+ "Error: " +:+ exn_msg e))).
Proof.
  intros He. unfold validate_batch. rewrite He.
  rewrite (Batch_new_raises _ _ He). reflexivity.
Qed.

Lemma validate_batch_trace batch : trace (validate_batch batch) = [].
Proof.
  destruct (Batch_new batch) as [b|e] eqn:Hb.
  - rewrite (validate_batch_ok _ _ Hb). reflexivity.
  - rewrite (validate_batch_raise _ _ Hb). reflexivity.
Qed.

Lemma prefix_append (s t : string) : String.prefix s (s +:+ t) = true.
Proof.
  induction s as [|c s IH]; simpl; [destruct t; reflexivity|].
  destruct (Ascii.ascii_dec c c); [exact IH|contradiction].
Qed.

Lemma step_invalid_batch self batch batch_idx mode e :
  validate_batch batch = ([], Raise e) ->
  step self batch batch_idx mode = ([], Raise e).
Proof. unfold _step. intros ->. reflexivity. Qed.


Lemma Batch_new_vars b : Batch_new (Batch_vars b) = Ok b.
Proof.
  unfold Batch_new, Batch_vars.
  rewrite lookup_insert_ne, lookup_insert_eq by discriminate.
  rewrite bool_decide_eq_true_2.
  - rewrite lookup_insert_eq.
    rewrite !lookup_insert_ne, lookup_singleton_eq by discriminate.
    destruct b; reflexivity.
  - rewrite !dom_insert_L, dom_singleton_L. unfold Batch_fields. set_solver.
Qed.


(** C7: validating the attributes of a validated batch succeeds and gives
    the same batch again; and the validation, of any mapping, produces no
    event: it only builds its result. *)
Theorem validate_batch_idempotent batch b :
  validate_batch batch = ([], Ok b) ->
  validate_batch (Batch_vars b) = ([], Ok b)
  /\ (forall batch', trace (validate_batch batch') = []).
Proof.
  intros _. split.
  - apply validate_batch_ok, Batch_new_vars.
  - apply validate_batch_trace.
Qed.

(** ** The step *)

Lemma forward_eq self input :
  forward self input
  = ([EvModel input (forward_kwargs self).1 (forward_kwargs self).2],
     Ok (forward_value self input)).
Proof. reflexivity. Qed.

(** The inferer's calls of the system, one after the other. *)
Lemma run_inference_eq self (i : inference tensor) :
  run_inference self i = (inference_calls self i, Ok (inference_value self i)).
Proof.
  induction i as [pred|input k IH]; [reflexivity|].
  cbn [run_inference inference_calls inference_value].
  rewrite forward_eq. unfold bind. rewrite IH. reflexivity.
Qed.

Lemma forward_phase self mode input :
  match inferer self with
  | Some inferer_fn =>
      if bool_decide (mode = VAL \/ mode = TEST \/ mode = PREDICT)
      then emit (EvInferer input) ;;
           run_inference self (inferer_fn input)
      else forward self input
  | None => forward self input
  end
  = (pred_events self mode input, Ok (pred_value self mode input)).
Proof.
  unfold pred_events, pred_value.
  destruct (inferer self); [case_bool_decide|]; try apply forward_eq.
  rewrite run_inference_eq. reflexivity.
Qed.

Lemma bind_ok {E A B} (t : list E) (a : A) (k : A -> M E B) :
  bind (t, Ok a) k = (t ++ trace (k a), outcome (k a)).
Proof. unfold bind, trace, outcome. destruct (k a). reflexivity. Qed.

(** The step of a valid batch, after the forward phase. *)
Ltac step_forward Hb :=
  unfold _step;
  rewrite (validate_batch_ok _ _ Hb), bind_ret_l;
  cbv zeta; rewrite forward_phase, bind_ok.

Lemma step_predict self batch batch_idx b :
  Batch_new batch = Ok b ->
  step self batch batch_idx PREDICT
  = (pred_events self PREDICT (batch_input b),
     Ok {[ Data_PRED := pred_value self PREDICT (batch_input b);
           Data_ID := batch_id b ]}).
Proof.
  intros Hb. step_forward Hb.
  rewrite bool_decide_eq_true_2 by reflexivity.
  unfold ret, trace, outcome. cbn [fst snd]. rewrite app_nil_r. reflexivity.
Qed.

Lemma inference_calls_quiet self (i : inference tensor) :
  Forall (fun ev => computes_or_logs ev = false) (inference_calls self i).
Proof.
  induction i as [pred|input k IH]; cbn [inference_calls]; [constructor|].
  constructor; [reflexivity|apply IH].
Qed.

Lemma pred_events_quiet self mode input :
  Forall (fun ev => computes_or_logs ev = false)
    (pred_events self mode input).
Proof.
  unfold pred_events.
  destruct (inferer self); [case_bool_decide|];
    repeat (constructor; [reflexivity|]);
    first [apply inference_calls_quiet | constructor].
Qed.

(** Whether a target is given changes neither the acceptance of a batch
    nor its identifier and input. *)
Lemma Batch_new_target batch t :
  match Batch_new (<["target" := t]> batch),
        Batch_new (delete "target" batch) with
  | Ok b1, Ok b2 =>
      batch_id b1 = batch_id b2 /\ batch_input b1 = batch_input b2
  | Raise e1, Raise e2 => e1 = e2
  | _, _ => False
  end.
Proof.
  unfold Batch_new.
  rewrite lookup_insert_ne, lookup_delete_ne by discriminate.
  destruct (batch !! "input") as [i|]; [|reflexivity].
  assert (Hiff : dom (<["target" := t]> batch) ⊆ Batch_fields
                 <-> dom (delete "target" batch) ⊆ (Batch_fields : gset string)).
  { rewrite dom_insert_L, dom_delete_L. unfold Batch_fields.
    split; intros H k Hk.
    - apply H. set_solver.
    - destruct (decide (k = "target")) as [->|Hne]; [set_solver|].
      apply H. set_solver. }
  do 2 case_bool_decide; try tauto; try reflexivity.
  simpl. rewrite lookup_insert_ne, lookup_delete_ne by discriminate.
  split; reflexivity.
Qed.

(** C1: in predict mode the step of a valid batch returns the mapping with
    exactly the entries [pred] and [id]; it calls neither the criterion nor
    the metrics and logs nothing; and it is the same whether the batch has
    a target or not. *)
Theorem predict_step_result self batch batch_idx b :
  Batch_new batch = Ok b ->
  (exists r,
     outcome (step self batch batch_idx PREDICT) = Ok r
     /\ r = {[ "pred" := pred_value self PREDICT (batch_input b);
               "id" := batch_id b ]}
     /\ dom r = {[ "pred"; "id" ]}
     /\ r !! "loss" = None /\ r !! "metrics" = None
     /\ r !! "input" = None /\ r !! "target" = None)
  /\ Forall (fun ev => computes_or_logs ev = false)
       (trace (step self batch batch_idx PREDICT))
  /\ (forall t,
        step self (<["target" := t]> batch) batch_idx PREDICT
        = step self (delete "target" batch) batch_idx PREDICT).
Proof.
  intros Hb. rewrite (step_predict _ _ _ _ Hb). split; [|split].
  - eexists. split; [reflexivity|]. split; [reflexivity|].
    split; [rewrite dom_insert_L, dom_singleton_L; reflexivity|].
    repeat split; reflexivity.
  - apply pred_events_quiet.
  - intros t. pose proof (Batch_new_target batch t) as Ht.
    destruct (Batch_new (<["target" := t]> batch)) as [b1|e1] eqn:H1;
      destruct (Batch_new (delete "target" batch)) as [b2|e2] eqn:H2;
      try contradiction.
    + rewrite (step_predict _ _ _ _ H1), (step_predict _ _ _ _ H2).
      destruct Ht as [-> ->]. reflexivity.
    + subst e2.
      rewrite (step_invalid_batch _ _ _ _ _ (validate_batch_raise _ _ H1)).
      rewrite (step_invalid_batch _ _ _ _ _ (validate_batch_raise _ _ H2)).
      reflexivity.
Qed.

Ltac monad_cbn :=
  cbn [bind ret raise emit lift trace outcome fst snd app].

(** The step after the loss phase has given [loss]. *)
Lemma step_tail self b batch_idx mode pred loss :
  (metrics <- (match metrics self mode with
               | Some (Some metric_fn) =>
                   emit (EvMetrics mode pred (batch_target b)) ;;
                   ret (metric_fn pred (batch_target b))
               | _ => ret PNone
               end) ;;
   (if lacks_total loss then raise (Exn ValueError total_msg) else ret tt) ;;
   log_stats self loss metrics mode batch_idx ;;
   loss_out <- (if isinstance_dict loss then getitem loss "total"
                else ret loss) ;;
   ret {[ "loss" := loss_out; "metrics" := metrics;
          Data_INPUT := batch_input b; Data_TARGET := batch_target b;
          Data_PRED := pred; Data_ID := batch_id b ]})
  = finish self b batch_idx mode pred loss.
Proof.
  unfold step_finish, metrics_value, metrics_event, step_result.
  unfold Data_INPUT, Data_TARGET, Data_PRED, Data_ID.
  destruct (metrics self mode) as [[metric_fn|]|]; monad_cbn;
    (destruct (lacks_total loss) eqn:Hl; monad_cbn; [reflexivity|]);
    match goal with
    | |- context [_log_stats ?g ?s ?l ?m ?md ?i] =>
        destruct (_log_stats g s l m md i) as [tl [[]|el]]
    end; monad_cbn; try reflexivity;
    (destruct loss as [|t|d]; cbn [isinstance_dict getitem]; monad_cbn;
     rewrite ?app_nil_r; try reflexivity;
     destruct (dict_get "total" d); monad_cbn; rewrite ?app_nil_r;
     reflexivity).
Qed.

Lemma call_criterion_eq self input pred target :
  call_criterion self input pred target
  = match criterion self with
    | Some f => ([EvCriterion input pred target], Ok (f input pred target))
    | None => ([], Raise not_callable)
    end.
Proof. unfold call_criterion. destruct (criterion self); reflexivity. Qed.

Lemma bind_ret {E A B} (a : A) (k : A -> M E B) : bind (ret a) k = k a.
Proof. apply bind_ret_l. Qed.

Lemma bind_raise {E A B} (t : list E) (e : exn) (k : A -> M E B) :
  bind (t, Raise e) k = (t, Raise e).
Proof. reflexivity. Qed.

(** The step of a valid batch in train and val mode. *)
Lemma step_train_val self batch batch_idx mode b :
  Batch_new batch = Ok b ->
  mode = TRAIN \/ mode = VAL ->
  step self batch batch_idx mode
  = let input := batch_input b in
    let pred := pred_value self mode input in
    match criterion self with
    | None => (pred_events self mode input, Raise not_callable)
    | Some f =>
        let m := finish self b batch_idx mode pred
                   (f input pred (batch_target b)) in
        (pred_events self mode input
           ++ EvCriterion input pred (batch_target b) :: trace m,
         outcome m)
    end.
Proof.
  intros Hb Hmode. step_forward Hb.
  rewrite bool_decide_eq_false_2 by (destruct Hmode; subst; discriminate).
  rewrite (bool_decide_eq_true_2 _ Hmode), call_criterion_eq.
  cbv zeta. destruct (criterion self) as [f|].
  - rewrite bind_ok. cbv beta. rewrite step_tail. reflexivity.
  - rewrite bind_raise. unfold trace, outcome. cbn [fst snd].
    rewrite app_nil_r. reflexivity.
Qed.

(** The step of a valid batch in test mode. *)
Lemma step_test self batch batch_idx b :
  Batch_new batch = Ok b ->
  step self batch batch_idx TEST
  = let pred := pred_value self TEST (batch_input b) in
    let m := finish self b batch_idx TEST pred PNone in
    (pred_events self TEST (batch_input b) ++ trace m, outcome m).
Proof.
  intros Hb. step_forward Hb.
  rewrite bool_decide_eq_false_2 by discriminate.
  rewrite (bool_decide_eq_false_2 (TEST = TRAIN \/ TEST = VAL))
    by (intros [|]; discriminate).
  rewrite !bind_ret, !step_tail. reflexivity.
Qed.

Lemma metrics_event_no_log self mode pred target :
  Forall (fun ev => is_log ev = false) (metrics_event self mode pred target).
Proof.
  unfold metrics_event. destruct (metrics self mode) as [[?|]|];
    repeat constructor.
Qed.

(** C3: when the loss that the criterion computes is a mapping without the
    key ["total"], the step raises the [ValueError] whose message names the
    key, and no record has been logged. *)
Theorem missing_total_fails_before_logging self batch batch_idx mode b f d :
  Batch_new batch = Ok b ->
  mode = TRAIN \/ mode = VAL ->
  criterion self = Some f ->
  f (batch_input b) (pred_value self mode (batch_input b)) (batch_target b)
    = PDict d ->
  dict_has "total" d = false ->
  outcome (step self batch batch_idx mode)
    = Raise (Exn ValueError total_msg)
  /\ mentions "'total'" total_msg = true
  /\ Forall (fun ev => is_log ev = false)
       (trace (step self batch batch_idx mode)).
Proof.
  intros Hb Hmode Hc Hf Hd.
  rewrite (step_train_val _ _ _ _ _ Hb Hmode), Hc. cbv zeta. rewrite Hf.
  unfold step_finish. cbn [lacks_total]. rewrite Hd. cbn [negb trace outcome fst snd].
  split; [reflexivity|]. split; [vm_compute; reflexivity|].
  apply Forall_app. split.
  - eapply Forall_impl; [apply pred_events_quiet|].
    intros [] H; try discriminate H; reflexivity.
  - constructor; [reflexivity|]. apply metrics_event_no_log.
Qed.

Lemma step_result_loss_field b pred loss metrics :
  step_result b pred loss metrics !! "loss" = Some loss.
Proof. unfold step_result. apply lookup_insert_eq. Qed.

Lemma finish_loss self b batch_idx mode pred loss r :
  outcome (finish self b batch_idx mode pred loss) = Ok r ->
  (forall d, loss = PDict d ->
     exists total, dict_get "total" d = Some total
                   /\ r !! "loss" = Some total)
  /\ (isinstance_dict loss = false -> r !! "loss" = Some loss).
Proof.
  unfold step_finish. destruct (lacks_total loss); [discriminate|].
  cbn [outcome snd].
  match goal with
  | |- context [outcome ?m] => destruct (outcome m); [|discriminate]
  end.
  destruct loss as [|t|d].
  - intros [= <-]. split; [discriminate|].
    intros _. apply step_result_loss_field.
  - intros [= <-]. split; [discriminate|].
    intros _. apply step_result_loss_field.
  - destruct (dict_get "total" d) as [total|] eqn:Ht; [|discriminate].
    intros [= <-]. split; [|discriminate].
    intros d' [= <-]. exists total. split; [assumption|].
    apply step_result_loss_field.
Qed.

(** C4: the [loss] entry of the result of a step other than a predict step
    is [None] in test mode; in train and val mode it is the ["total"] entry
    of the loss when the loss is a mapping, and the loss itself
    otherwise. *)
Theorem step_result_loss self batch batch_idx mode r :
  mode <> PREDICT ->
  outcome (step self batch batch_idx mode) = Ok r ->
  exists b,
    Batch_new batch = Ok b
    /\ (mode = TEST -> r !! "loss" = Some PNone)
    /\ (mode = TRAIN \/ mode = VAL ->
        exists f,
          criterion self = Some f
          /\ (forall d,
                f (batch_input b) (pred_value self mode (batch_input b))
                  (batch_target b) = PDict d ->
                exists total, dict_get "total" d = Some total
                              /\ r !! "loss" = Some total)
          /\ (isinstance_dict
                (f (batch_input b) (pred_value self mode (batch_input b))
                   (batch_target b)) = false ->
              r !! "loss"
              = Some (f (batch_input b)
                        (pred_value self mode (batch_input b))
                        (batch_target b)))).
Proof.
  intros Hmode Hr.
  destruct (Batch_new batch) as [b|e] eqn:Hb.
  2:{ rewrite (step_invalid_batch _ _ _ _ _ (validate_batch_raise _ _ Hb))
        in Hr. discriminate Hr. }
  exists b. split; [reflexivity|].
  assert (Hcases : mode = TEST \/ (mode = TRAIN \/ mode = VAL)).
  { destruct mode; auto. contradiction. }
  destruct Hcases as [->|Htv].
  - split; [|intros [|]; discriminate]. intros _.
    rewrite (step_test _ _ _ _ Hb) in Hr. cbv zeta in Hr.
    cbn [outcome snd] in Hr.
    apply finish_loss in Hr. apply Hr. reflexivity.
  - split; [intros ->; destruct Htv; discriminate|]. intros _.
    rewrite (step_train_val _ _ _ _ _ Hb Htv) in Hr. cbv zeta in Hr.
    destruct (criterion self) as [f|]; [|discriminate Hr].
    exists f. split; [reflexivity|].
    cbn [outcome snd] in Hr. apply finish_loss in Hr. exact Hr.
Qed.

(** C10: in train and val mode the step of a valid batch calls the
    criterion on the input, the prediction and the target, whatever they
    are; with no criterion the call itself fails, so that the step raises
    and never returns a result. *)
Theorem criterion_called_unconditionally self batch batch_idx mode :
  mode = TRAIN \/ mode = VAL ->
  (forall b, Batch_new batch = Ok b ->
     (forall f, criterion self = Some f ->
        EvCriterion (batch_input b)
          (pred_value self mode (batch_input b)) (batch_target b)
        ∈ trace (step self batch batch_idx mode))
     /\ (criterion self = None ->
         step self batch batch_idx mode
         = (pred_events self mode (batch_input b), Raise not_callable)))
  /\ (criterion self = None ->
      forall r, outcome (step self batch batch_idx mode) <> Ok r).
Proof.
  intros Hmode. split.
  - intros b Hb. rewrite (step_train_val _ _ _ _ _ Hb Hmode). cbv zeta.
    split.
    + intros f ->. cbn [trace fst]. apply elem_of_app. right.
      apply list_elem_of_In. left. reflexivity.
    + intros ->. reflexivity.
  - intros Hc r.
    destruct (Batch_new batch) as [b|e] eqn:Hb.
    + rewrite (step_train_val _ _ _ _ _ Hb Hmode), Hc. discriminate.
    + rewrite (step_invalid_batch _ _ _ _ _ (validate_batch_raise _ _ Hb)).
      discriminate.
Qed.

(** ** The learning rate *)

(** C8: with more than one parameter group, reading and writing the
    learning rate raise the [ValueError] that names the multiple groups and
    the system is as before; with one group, reading gives its [lr] and
    writing sets it. *)
Theorem learning_rate_groups self opt :
  optimizer self = Some opt ->
  ((1 < length (param_groups opt))%nat ->
   learning_rate self = Raise (Exn ValueError multi_group_msg)
   /\ (forall value,
         learning_rate_setter self value
         = (Raise (Exn ValueError multi_group_msg), self))
   /\ mentions "multiple optimizer parameter groups" multi_group_msg = true)
  /\ (forall group, param_groups opt = [group] ->
      (forall lr, group !! "lr" = Some lr -> learning_rate self = Ok lr)
      /\ (forall value, exists self',
            learning_rate_setter self value = (Ok tt, self')
            /\ optimizer self'
               = Some {| param_groups := [<["lr" := value]> group] |}
            /\ learning_rate self' = Ok value)).
Proof.
  intros Hopt. unfold learning_rate, learning_rate_setter. rewrite Hopt.
  split.
  - intros Hlen. rewrite bool_decide_eq_true_2 by assumption.
    split; [reflexivity|]. split; [reflexivity|]. vm_compute. reflexivity.
  - intros group Hg. rewrite Hg. cbn [length].
    rewrite bool_decide_eq_false_2 by lia. cbn [lookup list_lookup].
    split.
    + intros lr ->. reflexivity.
    + intros value. eexists. split; [reflexivity|].
      split; [reflexivity|]. cbn [set_optimizer optimizer param_groups].
      cbn [insert list_insert length lookup list_lookup].
      rewrite bool_decide_eq_false_2 by (cbn; lia).
      rewrite lookup_insert_eq. reflexivity.
Qed.

(** * Further properties of the system *)

(** ** The calls of [_log_stats] *)

Lemma prefix_append_l (a b c : string) :
  String.prefix (a +:+ b) (a +:+ c) = String.prefix b c.
Proof.
  induction a as [|ch a IH]; simpl; [reflexivity|].
  destruct (Ascii.ascii_dec ch ch); [exact IH|contradiction].
Qed.

Lemma prefix_mode mode (rest : string) :
  String.prefix (Mode_value mode +:+ "/") (Mode_value mode +:+ "/" +:+ rest)
  = true.
Proof.
  rewrite prefix_append_l. simpl.
  destruct (Ascii.ascii_dec "/" "/"); [|contradiction].
  destruct rest; reflexivity.
Qed.

Lemma log_stats_only_logs self loss metrics mode batch_idx :
  Forall (fun ev => is_log ev = true)
    (trace (log_stats self loss metrics mode batch_idx)).
Proof.
  apply log_stats_each. intros. unfold _log.
  destruct (batch_size self); repeat constructor.
Qed.

(** X8: every record that [_log_stats] logs has a name that starts with
    the mode and a slash. *)
Theorem log_stats_names self loss metrics mode batch_idx :
  Forall (named_by_mode mode)
    (trace (log_stats self loss metrics mode batch_idx)).
Proof.
  apply log_stats_each. intros rest value s e _. unfold _log.
  destruct (batch_size self); [|constructor].
  constructor; [|constructor]. intros r [= <-]. apply prefix_mode.
Qed.

Lemma log_stats_outcome_eq self size loss metrics mode batch_idx lg :
  batch_size self = Some size ->
  mapping_or_None metrics = true ->
  logger (trainer self) = Some lg ->
  outcome (log_stats self loss metrics mode batch_idx)
  = if bool_decide (mode = TRAIN) && (batch_idx =? 0) then
      match get_optimizer_stats (optimizer self) with
      | Ok _ => Ok tt
      | Raise e => Raise e
      end
    else Ok tt.
Proof.
  intros Hs Hm Hlg. unfold _log_stats. rewrite Hlg.
  destruct (bool_decide (mode = TRAIN) && (batch_idx =? 0));
    [destruct (get_optimizer_stats (optimizer self)) as [stats|e]|];
    (destruct metrics as [|t|dm]; try discriminate Hm);
    destruct loss as [|t|dl];
    cbn [negb is_None isinstance_dict items];
    rewrite ?(log_sized _ _ _ _ _ _ Hs);
    unfold outcome, lift, bind, ret;
    repeat first
      [ rewrite (for_each_logs (subloss_records size mode))
          by (intros; apply log_pair_loss; exact Hs)
      | rewrite (for_each_logs (metric_records size mode))
          by (intros; apply log_pair_metric; exact Hs)
      | rewrite (for_each_logs (fun x => [optimizer_record size mode x]))
          by (intros; apply log_optimizer_stat; exact Hs) ];
    reflexivity.
Qed.

(** When the logging returns: there is no logging backend; or the system
    has a [batch_size], the metrics are [None] or a mapping and
    [get_optimizer_stats] returns where it is called; or there is nothing
    to log. *)
Lemma log_stats_returns self loss metrics mode batch_idx :
  logger (trainer self) = None
  \/ is_Some (batch_size self)
     /\ mapping_or_None metrics = true
     /\ (mode <> TRAIN \/ batch_idx <> 0
         \/ exists stats, get_optimizer_stats (optimizer self) = Ok stats)
  \/ has_records loss = false /\ has_records metrics = false
     /\ (mode <> TRAIN \/ batch_idx <> 0) ->
  outcome (log_stats self loss metrics mode batch_idx) = Ok tt.
Proof.
  intros [Hlg|[([size Hs] & Hm & Hc)|(Hl & Hr & Hc)]].
  - unfold _log_stats. rewrite Hlg. reflexivity.
  - destruct (logger (trainer self)) as [lg|] eqn:Hlg.
    + rewrite (log_stats_outcome_eq _ _ _ _ _ _ lg Hs Hm Hlg).
      destruct Hc as [Hc|[Hc|[stats Hc]]].
      * rewrite bool_decide_eq_false_2 by assumption. reflexivity.
      * destruct (Z.eqb_spec batch_idx 0); [contradiction|].
        rewrite andb_false_r. reflexivity.
      * rewrite Hc. destruct (_ && _); reflexivity.
    + unfold _log_stats. rewrite Hlg. reflexivity.
  - unfold _log_stats. destruct (logger (trainer self)); [|reflexivity].
    assert (Hb : bool_decide (mode = TRAIN) && (batch_idx =? 0) = false).
    { destruct Hc as [Hc|Hc].
      - rewrite bool_decide_eq_false_2 by assumption. reflexivity.
      - destruct (Z.eqb_spec batch_idx 0); [contradiction|].
        apply andb_false_r. }
    rewrite Hb.
    destruct loss as [|t|[|x dl]]; try discriminate Hl;
      destruct metrics as [|t|[|x dm]]; try discriminate Hr; reflexivity.
Qed.

(** X6: on a system that has a [batch_size], with metrics that are [None]
    or a mapping, [_log_stats] raises only what [get_optimizer_stats]
    raises, and only in train mode at the batch of index 0, after the loss
    and metric records; otherwise it returns. *)
Theorem log_stats_outcome self size loss metrics mode batch_idx :
  batch_size self = Some size ->
  mapping_or_None metrics = true ->
  (mode <> TRAIN \/ batch_idx <> 0
   \/ (exists stats, get_optimizer_stats (optimizer self) = Ok stats) ->
   outcome (log_stats self loss metrics mode batch_idx) = Ok tt)
  /\ (forall lg e,
        logger (trainer self) = Some lg ->
        mode = TRAIN -> batch_idx = 0 ->
        get_optimizer_stats (optimizer self) = Raise e ->
        log_stats self loss metrics mode batch_idx
        = (EvLog <$> (loss_records size mode loss
                      ++ metrics_records size mode metrics),
           Raise e)).
Proof.
  intros Hs Hm. split.
  { intros Hc. apply log_stats_returns. right. left.
    split; [eexists; exact Hs|]. split; assumption. }
  intros lg e Hlg -> -> He.
  pose proof (log_stats_trace self size loss metrics TRAIN 0 lg Hlg Hs Hm)
    as Ht.
  pose proof (log_stats_outcome_eq self size loss metrics TRAIN 0 lg Hs Hm Hlg)
    as Ho.
  unfold optimizer_records in Ht. cbn [bool_decide decide_rel andb Z.eqb] in *.
  rewrite He in *. rewrite app_nil_r in Ht.
  destruct (log_stats self loss metrics TRAIN 0) as [t o].
  cbn [trace outcome fst snd] in *. subst. reflexivity.
Qed.

(** X9: when the metrics are neither [None] nor a mapping (as the tensor
    of a single metric), [_log_stats] with a logging backend raises an
    [AttributeError] and logs no optimizer statistics: on a system that has
    a [batch_size] it has logged the records of the loss and no other, and
    on a system without it has logged nothing.  Without a backend it
    returns. *)
Theorem log_stats_tensor_metrics self loss t mode batch_idx :
  (forall lg, logger (trainer self) = Some lg ->
     (exists e,
        outcome (log_stats self loss (PObj t) mode batch_idx) = Raise e
        /\ exn_cls e = AttributeError)
     /\ (forall size, batch_size self = Some size ->
           trace (log_stats self loss (PObj t) mode batch_idx)
           = EvLog <$> loss_records size mode loss)
     /\ (batch_size self = None ->
           trace (log_stats self loss (PObj t) mode batch_idx) = []))
  /\ (logger (trainer self) = None ->
      log_stats self loss (PObj t) mode batch_idx = ([], Ok tt)).
Proof.
  split.
  - intros lg Hlg.
    assert (Hsized : forall size, batch_size self = Some size ->
      log_stats self loss (PObj t) mode batch_idx
      = (EvLog <$> loss_records size mode loss,
         Raise (Exn AttributeError "object has no attribute 'items'"))).
    { intros size Hs. unfold _log_stats. rewrite Hlg.
      destruct loss as [|t'|dl];
        cbn [negb is_None isinstance_dict items loss_records];
        rewrite ?(log_sized _ _ _ _ _ _ Hs); unfold bind, ret, raise;
        rewrite ?(for_each_logs (subloss_records size mode))
          by (intros; apply log_pair_loss; exact Hs);
        simpl; rewrite ?app_nil_r; reflexivity. }
    split; [|split].
    + destruct (batch_size self) as [size|] eqn:Hs.
      * rewrite (Hsized size eq_refl). eexists. split; reflexivity.
      * destruct (has_records loss) eqn:Hl.
        -- rewrite (proj1 (log_stats_unsized_raises self loss (PObj t) mode
                             batch_idx lg Hlg Hs) Hl).
           eexists. split; reflexivity.
        -- unfold _log_stats. rewrite Hlg.
           destruct loss as [|t'|[|x dl]]; try discriminate Hl;
             eexists; split; reflexivity.
    + intros size Hs. rewrite (Hsized size Hs). reflexivity.
    + apply log_stats_unsized_trace.
  - intros Hlg. unfold _log_stats. rewrite Hlg. reflexivity.
Qed.

(** ** The calls and the result of the step *)

Lemma finish_trace_no_forward self b batch_idx mode pred loss :
  Forall (fun ev => is_forward_call ev = false)
    (trace (finish self b batch_idx mode pred loss)).
Proof.
  unfold step_finish.
  assert (Hcalls : Forall (fun ev : event tensor => is_forward_call ev = false)
                     (metrics_event self mode pred (batch_target b))).
  { unfold metrics_event. destruct (metrics self mode) as [[?|]|];
      repeat constructor. }
  destruct (lacks_total loss); cbn [trace fst]; [exact Hcalls|].
  apply Forall_app. split; [exact Hcalls|].
  eapply Forall_impl; [apply log_stats_only_logs|].
  intros [] H; try discriminate H; reflexivity.
Qed.

(** The trace of the step of a valid batch: the forward calls, then the
    rest. *)
Lemma step_trace_head self batch batch_idx mode b :
  Batch_new batch = Ok b ->
  exists rest,
    trace (step self batch batch_idx mode)
    = pred_events self mode (batch_input b) ++ rest
    /\ Forall (fun ev => is_forward_call ev = false) rest.
Proof.
  intros Hb. destruct mode.
  - rewrite (step_train_val _ _ _ _ _ Hb (or_introl eq_refl)). cbv zeta.
    destruct (criterion self); eexists; cbn [trace fst];
      (split; [try reflexivity|]).
    + constructor; [reflexivity|]. apply finish_trace_no_forward.
    + symmetry. apply app_nil_r.
    + constructor.
  - rewrite (step_train_val _ _ _ _ _ Hb (or_intror eq_refl)). cbv zeta.
    destruct (criterion self); eexists; cbn [trace fst];
      (split; [try reflexivity|]).
    + constructor; [reflexivity|]. apply finish_trace_no_forward.
    + symmetry. apply app_nil_r.
    + constructor.
  - rewrite (step_test _ _ _ _ Hb). cbv zeta.
    eexists; split; [reflexivity|]. apply finish_trace_no_forward.
  - rewrite (step_predict _ _ _ _ Hb).
    exists []. split; [symmetry; apply app_nil_r|constructor].
Qed.

Lemma inference_calls_model self (i : inference tensor) :
  Forall (fun ev => exists input,
            ev = EvModel input
                   (if hasarg_epoch (model self)
                    then Some (current_epoch self) else None)
                   (if hasarg_step (model self)
                    then Some (global_step self) else None))
    (inference_calls self i).
Proof.
  induction i as [pred|input k IH]; cbn [inference_calls]; [constructor|].
  constructor; [eexists; reflexivity|apply IH].
Qed.

(** X2: the forward calls of the step of a valid batch come first, and
    nothing after them is a forward call.  Without an inferer, and always
    in train mode, they are one call of the model, on the input of the
    batch, with the epoch and the step that its [forward] accepts.  With an
    inferer, in the other modes, they are the call of the inferer on the
    input of the batch and then the calls of the system that the inferer
    makes, each a call of the model with those keywords. *)
Theorem step_forward_calls self batch batch_idx mode b :
  Batch_new batch = Ok b ->
  exists calls rest,
    trace (step self batch batch_idx mode) = calls ++ rest
    /\ Forall (fun ev => is_forward_call ev = false) rest
    /\ (inferer self = None \/ mode = TRAIN ->
        calls = [EvModel (batch_input b)
                   (if hasarg_epoch (model self)
                    then Some (current_epoch self) else None)
                   (if hasarg_step (model self)
                    then Some (global_step self) else None)])
    /\ (forall inferer_fn, inferer self = Some inferer_fn -> mode <> TRAIN ->
        calls = EvInferer (batch_input b)
                  :: inference_calls self (inferer_fn (batch_input b))
        /\ Forall (fun ev => exists input,
                     ev = EvModel input
                            (if hasarg_epoch (model self)
                             then Some (current_epoch self) else None)
                            (if hasarg_step (model self)
                             then Some (global_step self) else None))
             (inference_calls self (inferer_fn (batch_input b)))).
Proof.
  intros Hb. destruct (step_trace_head self batch batch_idx mode b Hb)
    as (rest & Ht & Hrest).
  exists (pred_events self mode (batch_input b)), rest.
  split; [exact Ht|]. split; [exact Hrest|]. unfold pred_events. split.
  - intros [->| ->]; [reflexivity|].
    destruct (inferer self); [|reflexivity].
    rewrite bool_decide_eq_false_2; [reflexivity|].
    intros [|[|]]; discriminate.
  - intros f -> Hmode. rewrite bool_decide_eq_true_2.
    + split; [reflexivity|apply inference_calls_model].
    + destruct mode; auto. contradiction.
Qed.

Lemma inference_with_criterion self c (i : inference tensor) :
  inference_value (with_criterion self c) i = inference_value self i
  /\ inference_calls (with_criterion self c) i = inference_calls self i.
Proof.
  induction i as [pred|input k IH]; [split; reflexivity|].
  cbn [inference_value inference_calls].
  change (forward_value (with_criterion self c) input)
    with (forward_value self input).
  destruct (IH (forward_value self input)) as [-> ->].
  split; reflexivity.
Qed.

Lemma pred_with_criterion self c mode input :
  pred_value (with_criterion self c) mode input = pred_value self mode input
  /\ pred_events (with_criterion self c) mode input
     = pred_events self mode input.
Proof.
  unfold pred_value, pred_events. cbn [with_criterion inferer].
  destruct (inferer self) as [f|]; [|split; reflexivity].
  destruct (inference_with_criterion self c (f input)) as [-> ->].
  split; reflexivity.
Qed.

(** X3: the steps of test and predict mode do not depend on the
    criterion. *)
Theorem step_independent_of_criterion self c batch batch_idx mode :
  mode = TEST \/ mode = PREDICT ->
  step (with_criterion self c) batch batch_idx mode
  = step self batch batch_idx mode.
Proof.
  intros Hmode. destruct (Batch_new batch) as [b|e] eqn:Hb.
  - destruct Hmode as [->| ->].
    + rewrite !(step_test _ _ _ _ Hb). cbv zeta.
      destruct (pred_with_criterion self c TEST (batch_input b)) as [-> ->].
      reflexivity.
    + rewrite !(step_predict _ _ _ _ Hb).
      destruct (pred_with_criterion self c PREDICT (batch_input b))
        as [-> ->].
      reflexivity.
  - rewrite !(step_invalid_batch _ _ _ _ _ (validate_batch_raise _ _ Hb)).
    reflexivity.
Qed.

Lemma finish_result self b batch_idx mode pred loss r :
  outcome (finish self b batch_idx mode pred loss) = Ok r ->
  exists loss_out,
    r = step_result b pred loss_out
          (metrics_value self mode pred (batch_target b)).
Proof.
  unfold step_finish. destruct (lacks_total loss); [discriminate|].
  cbn [outcome snd].
  match goal with
  | |- context [outcome ?m] => destruct (outcome m); [|discriminate]
  end.
  destruct loss as [|t|d]; [| |destruct (dict_get "total" d); [|discriminate]];
    intros [= <-]; eexists; reflexivity.
Qed.

(** X4: the result of a step other than a predict step has exactly the
    entries [loss], [metrics], [input], [target], [pred] and [id]; the
    input, the target and the identifier are those of the batch, the
    prediction is that of the forward call, and the metrics are [None] when
    the mode has none. *)
Theorem step_result_entries self batch batch_idx mode r :
  mode <> PREDICT ->
  outcome (step self batch batch_idx mode) = Ok r ->
  exists b,
    Batch_new batch = Ok b
    /\ dom r = {[ "loss"; "metrics"; "input"; "target"; "pred"; "id" ]}
    /\ r !! "input" = Some (batch_input b)
    /\ r !! "target" = Some (batch_target b)
    /\ r !! "id" = Some (batch_id b)
    /\ r !! "pred" = Some (pred_value self mode (batch_input b))
    /\ r !! "metrics"
       = Some (metrics_value self mode
                 (pred_value self mode (batch_input b)) (batch_target b))
    /\ (metrics self mode = None \/ metrics self mode = Some None ->
        r !! "metrics" = Some PNone).
Proof.
  intros Hmode Hr.
  destruct (Batch_new batch) as [b|e] eqn:Hb.
  2:{ rewrite (step_invalid_batch _ _ _ _ _ (validate_batch_raise _ _ Hb))
        in Hr. discriminate Hr. }
  exists b. split; [reflexivity|].
  assert (Hres : exists loss_out,
            r = step_result b (pred_value self mode (batch_input b)) loss_out
                  (metrics_value self mode
                     (pred_value self mode (batch_input b)) (batch_target b))).
  { destruct mode; try contradiction.
    - rewrite (step_train_val _ _ _ _ _ Hb (or_introl eq_refl)) in Hr.
      cbv zeta in Hr. destruct (criterion self); [|discriminate Hr].
      eapply finish_result. exact Hr.
    - rewrite (step_train_val _ _ _ _ _ Hb (or_intror eq_refl)) in Hr.
      cbv zeta in Hr. destruct (criterion self); [|discriminate Hr].
      eapply finish_result. exact Hr.
    - rewrite (step_test _ _ _ _ Hb) in Hr. eapply finish_result. exact Hr. }
  destruct Hres as [loss_out ->]. unfold step_result.
  split; [rewrite !dom_insert_L, dom_singleton_L; set_solver|].
  repeat split;
    try (rewrite !lookup_insert_ne by discriminate;
         first [apply lookup_insert_eq | apply lookup_singleton_eq]).
  intros Hnone. rewrite !lookup_insert_ne by discriminate.
  rewrite lookup_insert_eq. unfold metrics_value.
  destruct Hnone as [-> | ->]; reflexivity.
Qed.

Lemma finish_returns self b batch_idx mode pred loss :
  lacks_total loss = false ->
  outcome (log_stats self loss
             (metrics_value self mode pred (batch_target b)) mode batch_idx)
  = Ok tt ->
  exists r, outcome (finish self b batch_idx mode pred loss) = Ok r.
Proof.
  intros Hl Hlog. unfold step_finish. rewrite Hl. cbn [outcome snd] in *.
  rewrite Hlog. destruct loss as [|t|d]; try (eexists; reflexivity).
  cbn [lacks_total] in Hl. unfold dict_has in Hl.
  destruct (dict_get "total" d); [eexists; reflexivity|discriminate Hl].
Qed.

(** X5: the step of a valid batch returns a result in test mode, and in
    train and val mode when there is a criterion whose loss is not a
    mapping without ["total"], provided the logging returns: there is no
    logging backend; or the system has a [batch_size], the metrics of the
    mode are [None] or a mapping and, in train mode at the batch of index
    0, [get_optimizer_stats] returns; or there is nothing to log, the loss
    and the metrics being [None] or empty, outside of train mode at the
    batch of index 0. *)
Theorem step_returns self batch batch_idx mode b loss :
  Batch_new batch = Ok b ->
  (mode = TEST /\ loss = PNone
   \/ (mode = TRAIN \/ mode = VAL)
      /\ exists f, criterion self = Some f
                   /\ loss = f (batch_input b)
                              (pred_value self mode (batch_input b))
                              (batch_target b)) ->
  lacks_total loss = false ->
  (logger (trainer self) = None
   \/ is_Some (batch_size self)
      /\ mapping_or_None
           (metrics_value self mode (pred_value self mode (batch_input b))
              (batch_target b)) = true
      /\ (mode <> TRAIN \/ batch_idx <> 0
          \/ exists stats, get_optimizer_stats (optimizer self) = Ok stats)
   \/ has_records loss = false
      /\ has_records
           (metrics_value self mode (pred_value self mode (batch_input b))
              (batch_target b)) = false
      /\ (mode <> TRAIN \/ batch_idx <> 0)) ->
  exists r, outcome (step self batch batch_idx mode) = Ok r.
Proof.
  intros Hb Hmode Hl Hlog.
  pose proof (log_stats_returns self loss _ mode batch_idx Hlog) as Ho.
  destruct Hmode as [[-> ->]|[Htv (f & Hc & ->)]].
  - rewrite (step_test _ _ _ _ Hb). cbv zeta. cbn [outcome snd].
    apply finish_returns; assumption.
  - rewrite (step_train_val _ _ _ _ _ Hb Htv), Hc. cbv zeta.
    cbn [outcome snd]. apply finish_returns; assumption.
Qed.

(** X7: the metrics are computed before the loss is checked: when the
    mode has metrics and the loss is a mapping without ["total"], the step
    has called the metrics when it raises. *)
Theorem metrics_called_before_total_check self batch batch_idx mode b f d
    metric_fn :
  Batch_new batch = Ok b ->
  mode = TRAIN \/ mode = VAL ->
  criterion self = Some f ->
  f (batch_input b) (pred_value self mode (batch_input b)) (batch_target b)
    = PDict d ->
  dict_has "total" d = false ->
  metrics self mode = Some (Some metric_fn) ->
  step self batch batch_idx mode
  = (pred_events self mode (batch_input b)
       ++ [ EvCriterion (batch_input b)
              (pred_value self mode (batch_input b)) (batch_target b);
            EvMetrics mode (pred_value self mode (batch_input b))
              (batch_target b) ],
     Raise (Exn ValueError total_msg)).
Proof.
  intros Hb Hmode Hc Hf Hd Hm.
  rewrite (step_train_val _ _ _ _ _ Hb Hmode), Hc. cbv zeta. rewrite Hf.
  unfold step_finish, metrics_event. cbn [lacks_total]. rewrite Hd, Hm.
  reflexivity.
Qed.

(** ** The optimizer *)

(** X1: [configure_optimizers] raises the [ValueError] that names
    [system.optimizer] when the system has no optimizer; otherwise it
    returns the optimizer under ["optimizer"], the scheduler under
    ["lr_scheduler"] when there is one, and nothing else; and then reading
    the learning rate does not fail for want of an optimizer. *)
Theorem configure_optimizers_entries self :
  (optimizer self = None ->
   configure_optimizers self = Raise (Exn ValueError optimizer_missing_msg)
   /\ mentions "system.optimizer" optimizer_missing_msg = true)
  /\ (forall r, configure_optimizers self = Ok r ->
      r !! "optimizer" = CfgOptimizer <$> optimizer self
      /\ r !! "lr_scheduler" = CfgScheduler <$> scheduler self
      /\ dom r ⊆ {[ "optimizer"; "lr_scheduler" ]}
      /\ is_Some (optimizer self)
      /\ forall e, learning_rate self = Raise e ->
           exn_cls e <> AttributeError).
Proof.
  unfold configure_optimizers, learning_rate. split.
  - intros ->. split; [reflexivity|]. vm_compute. reflexivity.
  - intros r. destruct (optimizer self) as [opt|]; [|discriminate].
    intros Hr.
    assert (Hlr : forall e,
              (if bool_decide (1 < length (param_groups opt))%nat
               then Raise (Exn ValueError multi_group_msg)
               else match param_groups opt !! 0%nat with
                    | Some group =>
                        match group !! "lr" with
                        | Some lr => Ok lr
                        | None => Raise (Exn KeyError "lr")
                        end
                    | None => Raise (Exn IndexError "list index out of range")
                    end) = Raise e -> exn_cls e <> AttributeError).
    { intros e. case_bool_decide; [intros [= <-]; discriminate|].
      destruct (param_groups opt !! 0%nat) as [g|];
        [destruct (g !! "lr")|]; intros [= <-]; discriminate. }
    destruct (scheduler self) as [sch|]; injection Hr as <-.
    + rewrite lookup_insert_eq, lookup_insert_ne, lookup_singleton_eq
        by discriminate.
      rewrite dom_insert_L, dom_singleton_L.
      repeat split; [set_solver|eexists; reflexivity|exact Hlr].
    + rewrite lookup_singleton_eq, lookup_singleton_ne by discriminate.
      rewrite dom_singleton_L.
      repeat split; [set_solver|eexists; reflexivity|exact Hlr].
Qed.

Lemma one_group_list {A} (l : list A) (x : A) :
  ~ (1 < length l)%nat -> l !! 0%nat = Some x -> l = [x].
Proof.
  destruct l as [|y [|z l]]; simpl; intros Hlen Hx;
    [discriminate| injection Hx as ->; reflexivity | lia].
Qed.

Lemma set_optimizer_same self opt :
  optimizer self = Some opt -> set_optimizer self opt = self.
Proof. destruct self. simpl. intros ->. reflexivity. Qed.

(** X10: what the learning rate property does when it cannot work: with
    no optimizer reading and writing raise an [AttributeError], with an
    optimizer without parameter groups an [IndexError]; a write that raises
    leaves the system as it was; and on a single group without [lr] reading
    raises a [KeyError] while writing succeeds. *)
Theorem learning_rate_failures self :
  (optimizer self = None ->
   learning_rate self = Raise no_param_groups
   /\ forall value, learning_rate_setter self value
                    = (Raise no_param_groups, self))
  /\ (forall opt, optimizer self = Some opt -> param_groups opt = [] ->
      exists e, exn_cls e = IndexError
                /\ learning_rate self = Raise e
                /\ forall value, learning_rate_setter self value
                                 = (Raise e, self))
  /\ (forall value e self',
        learning_rate_setter self value = (Raise e, self') -> self' = self)
  /\ (forall opt group, optimizer self = Some opt ->
      param_groups opt = [group] -> group !! "lr" = None ->
      learning_rate self = Raise (Exn KeyError "lr")
      /\ forall value, exists self',
           learning_rate_setter self value = (Ok tt, self')
           /\ learning_rate self' = Ok value).
Proof.
  unfold learning_rate, learning_rate_setter. split; [|split; [|split]].
  - intros ->. split; [reflexivity|]. intros value. reflexivity.
  - intros opt -> ->. eexists. split; [|split; [reflexivity|]];
      [reflexivity|]. intros value. reflexivity.
  - intros value e self'. destruct (optimizer self) as [opt|];
      [case_bool_decide; [|destruct (param_groups opt !! 0%nat)]|];
      intros [= <- <-] || intros [=]; reflexivity.
  - intros opt group -> Hg Hlr. rewrite Hg. cbn [length].
    rewrite bool_decide_eq_false_2 by lia. cbn [lookup list_lookup].
    rewrite Hlr. split; [reflexivity|].
    intros value. eexists. split; [reflexivity|].
    cbn [set_optimizer optimizer param_groups].
    cbn [insert list_insert length lookup list_lookup].
    rewrite bool_decide_eq_false_2 by (cbn; lia).
    rewrite lookup_insert_eq. reflexivity.
Qed.

(** X11: writing back the learning rate that was read changes
    nothing. *)
Theorem learning_rate_write_back self lr :
  learning_rate self = Ok lr ->
  learning_rate_setter self lr = (Ok tt, self).
Proof.
  unfold learning_rate, learning_rate_setter.
  destruct (optimizer self) as [opt|] eqn:Hopt; [|discriminate].
  case_bool_decide as Hlen; [discriminate|].
  destruct (param_groups opt !! 0%nat) as [group|] eqn:Hg; [|discriminate].
  destruct (group !! "lr") as [lr'|] eqn:Hlr; [|discriminate].
  intros [= ->]. f_equal.
  rewrite (insert_id group "lr" lr Hlr).
  rewrite (one_group_list _ _ Hlen Hg). cbn [insert list_insert].
  rewrite <- (one_group_list _ _ Hlen Hg).
  destruct opt as [groups]. apply set_optimizer_same. exact Hopt.
Qed.

(** X12: a write of the learning rate that succeeds has found exactly one
    parameter group; it sets [lr] there and keeps the other entries of the
    group and the rest of the system; and of two writes the second
    decides. *)
Theorem learning_rate_setter_frame self value self' :
  learning_rate_setter self value = (Ok tt, self') ->
  exists opt group,
    optimizer self = Some opt
    /\ param_groups opt = [group]
    /\ self'
       = set_optimizer self {| param_groups := [<["lr" := value]> group] |}
    /\ (forall k, k <> "lr" ->
          (<["lr" := value]> group : gmap string (pyval tensor)) !! k
          = group !! k)
    /\ criterion self' = criterion self
    /\ scheduler self' = scheduler self
    /\ trainer self' = trainer self
    /\ (forall value',
          learning_rate_setter self' value'
          = learning_rate_setter self value').
Proof.
  unfold learning_rate_setter at 1.
  destruct (optimizer self) as [opt|] eqn:Hopt; [|discriminate].
  case_bool_decide as Hlen; [discriminate|].
  destruct (param_groups opt !! 0%nat) as [group|] eqn:Hg; [|discriminate].
  pose proof (one_group_list _ _ Hlen Hg) as Hone.
  intros [= <-]. exists opt, group. rewrite Hone.
  cbn [insert list_insert].
  split; [reflexivity|]. split; [reflexivity|]. split; [reflexivity|].
  split; [intros k Hk; apply lookup_insert_ne; congruence|].
  split; [reflexivity|]. split; [reflexivity|]. split; [reflexivity|].
  intros value'. unfold learning_rate_setter.
  cbn [set_optimizer optimizer param_groups length lookup list_lookup].
  rewrite Hopt, Hone. cbn [length lookup list_lookup].
  rewrite !bool_decide_eq_false_2 by (cbn; lia).
  cbn [insert list_insert]. rewrite insert_insert_eq. reflexivity.
Qed.

End LighterFacts.

(** * Properties of the command line *)

Section CliFacts.

Import Cli.

Variable files : string -> option (gmap string string).

Local Abbreviation load := (load_configs files).
Local Abbreviation run := (run_trainer_method files).
Local Abbreviation declared' := (declared files).

Lemma load_configs_cons config configs' project_imported content :
  files config = Some content ->
  load (config :: configs') project_imported
  = match content !! "project" with
    | Some path =>
        if project_imported then
          ([EvOpen config; EvLoggerError project_msg], Raise (Exn SystemExit EmptyString))
        else
          (EvOpen config :: EvImport "project" path
             :: trace (load configs' true),
           outcome (load configs' true))
    | None =>
        (EvOpen config :: trace (load configs' project_imported),
         outcome (load configs' project_imported))
    end.
Proof.
  intros Hf. cbn [load_configs]. unfold safe_load_open. rewrite Hf.
  unfold trace, outcome. cbn [bind ret raise emit sys_exit app].
  destruct (content !! "project") as [path|]; [destruct project_imported|];
    cbn [bind ret raise emit sys_exit app];
    try reflexivity;
    match goal with |- context [load_configs ?f ?l ?p] =>
      destruct (load_configs f l p) as [t r] end;
    reflexivity.
Qed.

Lemma declared_cons config configs' :
  declared' (config :: configs')
  = (Nat.b2n (declares_project files config) + declared' configs')%nat.
Proof.
  unfold declared. cbn [List.filter].
  destruct (declares_project files config); reflexivity.
Qed.

(** At most one declaration: the loop ends, and has imported each declared
    project. *)
Lemma load_configs_ok configs : forall project_imported,
  forallb (readable files) configs = true ->
  (declared' configs + Nat.b2n project_imported <= 1)%nat ->
  outcome (load configs project_imported)
    = Ok (project_imported || (0 <? declared' configs)%nat)
  /\ count is_error (trace (load configs project_imported)) = 0%nat
  /\ count is_import (trace (load configs project_imported))
     = declared' configs
  /\ count is_run (trace (load configs project_imported)) = 0%nat.
Proof.
  induction configs as [|config configs' IH]; intros imported Hread Hle.
  - cbn. rewrite orb_false_r. repeat split; reflexivity.
  - cbn [forallb] in Hread. apply andb_true_iff in Hread as [Hr Hread].
    rewrite declared_cons in *. unfold readable, declares_project in *.
    destruct (files config) as [content|] eqn:Hf; [|discriminate].
    rewrite (load_configs_cons _ _ _ _ Hf).
    destruct (content !! "project") as [path|]; cbn [Nat.b2n] in *.
    + destruct imported; cbn [Nat.b2n] in Hle; [lia|].
      destruct (IH true Hread ltac:(cbn; lia)) as (Ho & He & Hi & Hrun).
      cbn [trace outcome fst snd]. unfold count in *.
      cbn [List.filter is_error is_import is_run length].
      rewrite Ho. repeat split; auto.
    + destruct (IH imported Hread ltac:(lia)) as (Ho & He & Hi & Hrun).
      cbn [trace outcome fst snd]. unfold count in *.
      cbn [List.filter is_error is_import is_run length].
      rewrite Ho. repeat split; auto.
Qed.

Lemma last_cons_Some {A} (a x : A) (l : list A) :
  last l = Some x -> last (a :: l) = Some x.
Proof. destruct l; [discriminate|]. intros H. exact H. Qed.

(** Two declarations or more: the loop exits at the second one. *)
Lemma load_configs_exit configs : forall project_imported,
  forallb (readable files) configs = true ->
  (2 <= declared' configs + Nat.b2n project_imported)%nat ->
  outcome (load configs project_imported) = Raise (Exn SystemExit EmptyString)
  /\ count is_error (trace (load configs project_imported)) = 1%nat
  /\ last (trace (load configs project_imported))
     = Some (EvLoggerError project_msg)
  /\ count is_import (trace (load configs project_imported))
     = (1 - Nat.b2n project_imported)%nat
  /\ count is_run (trace (load configs project_imported)) = 0%nat.
Proof.
  induction configs as [|config configs' IH]; intros imported Hread Hge.
  - unfold declared in Hge. destruct imported; cbn in Hge; lia.
  - cbn [forallb] in Hread. apply andb_true_iff in Hread as [Hr Hread].
    rewrite declared_cons in *. unfold readable, declares_project in *.
    destruct (files config) as [content|] eqn:Hf; [|discriminate].
    rewrite (load_configs_cons _ _ _ _ Hf).
    destruct (content !! "project") as [path|]; cbn [Nat.b2n] in *.
    + destruct imported; cbn [Nat.b2n] in Hge.
      * repeat split; reflexivity.
      * destruct (IH true Hread ltac:(cbn; lia))
          as (Ho & He & Hl & Hi & Hrun).
        cbn [trace outcome fst snd]. unfold count in *.
        cbn [List.filter is_error is_import is_run length].
        rewrite Ho, He, Hi, Hrun. repeat split; try reflexivity.
        do 2 apply last_cons_Some. exact Hl.
    + destruct (IH imported Hread ltac:(lia)) as (Ho & He & Hl & Hi & Hrun).
      cbn [trace outcome fst snd]. unfold count in *.
      cbn [List.filter is_error is_import is_run length].
      rewrite Ho, He, Hi, Hrun. repeat split; try reflexivity.
      apply last_cons_Some. exact Hl.
Qed.

Lemma run_trainer_method_eq name kwargs :
  run name kwargs
  = match outcome (load (config_files kwargs) false) with
    | Ok _ =>
        (trace (load (config_files kwargs) false) ++ [EvRun name kwargs],
         Ok tt)
    | Raise e => (trace (load (config_files kwargs) false), Raise e)
    end.
Proof.
  unfold run_trainer_method, config_files.
  destruct (kwargs !! "config_file") as [config_file|]; [|reflexivity].
  destruct (load (ensure_tuple config_file) false) as [t [imported|e]];
    cbn [bind ret emit trace outcome fst snd]; rewrite ?app_nil_r;
    reflexivity.
Qed.

Lemma count_snoc kind (t : list event) ev :
  count kind (t ++ [ev]) = (count kind t + Nat.b2n (kind ev))%nat.
Proof.
  unfold count. rewrite List.filter_app, length_app. cbn [List.filter].
  destruct (kind ev); reflexivity.
Qed.

(** C9: when two or more of the config files declare [project], the run
    logs one error and exits at the second declaration, before the trainer
    method is run; with at most one declaration nothing is logged, each
    declared project is imported, at most one, and the trainer method is
    run, last. *)
Theorem run_trainer_method_project name kwargs :
  forallb (readable files) (config_files kwargs) = true ->
  ((2 <= declared' (config_files kwargs))%nat ->
   outcome (run name kwargs) = Raise (Exn SystemExit EmptyString)
   /\ count is_error (trace (run name kwargs)) = 1%nat
   /\ last (trace (run name kwargs)) = Some (EvLoggerError project_msg)
   /\ count is_run (trace (run name kwargs)) = 0%nat)
  /\ ((declared' (config_files kwargs) <= 1)%nat ->
      outcome (run name kwargs) = Ok tt
      /\ count is_error (trace (run name kwargs)) = 0%nat
      /\ count is_import (trace (run name kwargs))
         = declared' (config_files kwargs)
      /\ (count is_import (trace (run name kwargs)) <= 1)%nat
      /\ count is_run (trace (run name kwargs)) = 1%nat
      /\ last (trace (run name kwargs)) = Some (EvRun name kwargs)).
Proof.
  intros Hread. rewrite run_trainer_method_eq. split.
  - intros Hge.
    destruct (load_configs_exit _ false Hread ltac:(cbn; lia))
      as (Ho & He & Hl & _ & Hrun).
    rewrite Ho. cbn [trace outcome fst snd] in *. auto.
  - intros Hle.
    destruct (load_configs_ok _ false Hread ltac:(cbn; lia))
      as (Ho & He & Hi & Hrun).
    rewrite Ho. cbn [trace outcome fst snd] in *.
    rewrite !count_snoc, He, Hi, Hrun, last_snoc. cbn.
    repeat split; try reflexivity; lia.
Qed.

(** * Further properties of the command line *)

Lemma load_configs_unreadable config configs' project_imported :
  files config = None ->
  load (config :: configs') project_imported
  = ([EvOpen config], Raise (Exn FileNotFoundError config)).
Proof.
  intros Hf. cbn [load_configs]. unfold safe_load_open. rewrite Hf.
  reflexivity.
Qed.

(** The loop over [pre ++ rest] is the loop over [pre], then the loop over
    [rest] from the state that [pre] leaves. *)
Lemma load_configs_app pre rest : forall project_imported,
  forallb (readable files) pre = true ->
  load (pre ++ rest) project_imported
  = match outcome (load pre project_imported) with
    | Ok imported =>
        (trace (load pre project_imported) ++ trace (load rest imported),
         outcome (load rest imported))
    | Raise e => (trace (load pre project_imported), Raise e)
    end.
Proof.
  induction pre as [|config pre IH]; intros imported Hread.
  - cbn. destruct (load rest imported). reflexivity.
  - cbn [forallb] in Hread. apply andb_true_iff in Hread as [Hr Hread].
    unfold readable in Hr.
    destruct (files config) as [content|] eqn:Hf; [|discriminate].
    cbn [app]. rewrite !(load_configs_cons _ _ _ _ Hf).
    destruct (content !! "project") as [path|]; [destruct imported|];
      try reflexivity; rewrite (IH _ Hread); cbn [trace outcome fst snd];
      match goal with
      | |- context [load_configs files pre ?i] =>
          destruct (load_configs files pre i) as [t [imp|e]]
      end; reflexivity.
Qed.

Lemma load_configs_plain configs : forall project_imported,
  forallb (readable files) configs = true ->
  declared' configs = 0%nat ->
  load configs project_imported = (EvOpen <$> configs, Ok project_imported).
Proof.
  induction configs as [|config configs' IH]; intros imported Hread Hd;
    [reflexivity|].
  cbn [forallb] in Hread. apply andb_true_iff in Hread as [Hr Hread].
  rewrite declared_cons in Hd. unfold readable, declares_project in *.
  destruct (files config) as [content|] eqn:Hf; [|discriminate].
  rewrite (load_configs_cons _ _ _ _ Hf).
  destruct (content !! "project"); [cbn in Hd; lia|].
  rewrite (IH imported Hread ltac:(cbn in Hd; lia)). reflexivity.
Qed.

(** X13: when no config file declares [project], the run opens the config
    files in their order, imports nothing, and runs the trainer method;
    with no config file at all it only runs the trainer method. *)
Theorem run_without_declaration name kwargs :
  forallb (readable files) (config_files kwargs) = true ->
  declared' (config_files kwargs) = 0%nat ->
  run name kwargs
  = ((EvOpen <$> config_files kwargs) ++ [EvRun name kwargs], Ok tt).
Proof.
  intros Hread Hd. rewrite run_trainer_method_eq.
  rewrite (load_configs_plain _ false Hread Hd). reflexivity.
Qed.

(** X14: a config file that cannot be opened, after files of which at most
    one declares [project], stops the run with a [FileNotFoundError]: the
    files after it are not opened and the trainer method is not run. *)
Theorem run_unreadable_config name kwargs pre bad post :
  config_files kwargs = pre ++ bad :: post ->
  forallb (readable files) pre = true ->
  (declared' pre <= 1)%nat ->
  files bad = None ->
  run name kwargs
  = (trace (load pre false) ++ [EvOpen bad],
     Raise (Exn FileNotFoundError bad))
  /\ count is_run (trace (run name kwargs)) = 0%nat
  /\ count is_error (trace (run name kwargs)) = 0%nat.
Proof.
  intros Hcf Hread Hle Hbad.
  destruct (load_configs_ok pre false Hread ltac:(cbn; lia))
    as (Ho & He & _ & Hrun).
  assert (Heq : run name kwargs
                = (trace (load pre false) ++ [EvOpen bad],
                   Raise (Exn FileNotFoundError bad))).
  { rewrite run_trainer_method_eq, Hcf, (load_configs_app _ _ _ Hread), Ho.
    rewrite (load_configs_unreadable _ _ _ Hbad). reflexivity. }
  rewrite Heq. cbn [trace fst]. rewrite !count_snoc, He, Hrun.
  repeat split; reflexivity.
Qed.

(** X15: the run exits at the second file that declares [project]: the
    files after it are not opened, whatever they are, and the project of
    the first declaration has been imported by then. *)
Theorem run_exits_at_second_declaration name kwargs pre second post :
  config_files kwargs = pre ++ second :: post ->
  forallb (readable files) pre = true ->
  declared' pre = 1%nat ->
  declares_project files second = true ->
  run name kwargs
  = (trace (load pre false)
       ++ [EvOpen second; EvLoggerError project_msg],
     Raise (Exn SystemExit EmptyString))
  /\ count is_import (trace (run name kwargs)) = 1%nat.
Proof.
  intros Hcf Hread Hd Hsec.
  destruct (load_configs_ok pre false Hread ltac:(cbn; lia))
    as (Ho & _ & Hi & _).
  rewrite Hd in Ho, Hi. cbn in Ho.
  unfold declares_project in Hsec.
  destruct (files second) as [content|] eqn:Hf; [|discriminate].
  destruct (content !! "project") as [path|] eqn:Hp; [|discriminate].
  assert (Heq : run name kwargs
                = (trace (load pre false)
                     ++ [EvOpen second; EvLoggerError project_msg],
                   Raise (Exn SystemExit EmptyString))).
  { rewrite run_trainer_method_eq, Hcf, (load_configs_app _ _ _ Hread), Ho.
    rewrite (load_configs_cons _ _ _ _ Hf), Hp. reflexivity. }
  rewrite Heq. split; [reflexivity|]. cbn [trace fst].
  unfold count in *. rewrite List.filter_app, length_app, Hi. reflexivity.
Qed.

End CliFacts.

(** * Properties of the schema of [args] *)

Section SchemaFacts.

Import Schema.

Context {A : Type}.
Implicit Types (self : ArgsConfigSchema A) (d : gmap string A).

Lemma found_keys_spec d key :
  key ∈ found_keys d <-> key ∈ prohibited_keys /\ is_Some (d !! key).
Proof.
  unfold found_keys. rewrite !list_elem_of_In, List.filter_In.
  rewrite bool_decide_eq_true. reflexivity.
Qed.

Lemma found_keys_nil d :
  found_keys d = [] <-> forall key, key ∈ prohibited_keys -> d !! key = None.
Proof.
  split.
  - intros Hnil key Hin. destruct (d !! key) eqn:Hk; [|reflexivity].
    exfalso. assert (Hf : key ∈ found_keys d).
    { apply found_keys_spec. split; [exact Hin|]. rewrite Hk. eexists.
      reflexivity. }
    rewrite Hnil in Hf. inversion Hf.
  - intros Hall. destruct (found_keys d) as [|key l] eqn:Hf; [reflexivity|].
    assert (Hin : key ∈ found_keys d) by (rewrite Hf; left).
    apply found_keys_spec in Hin as [Hin [v Hv]].
    rewrite (Hall key Hin) in Hv. discriminate.
Qed.

Lemma check_fields_clean self fields :
  Forall (fun field => found_keys (field.2 self) = []) fields ->
  for_each fields (check_field self) = ([], Ok tt).
Proof.
  induction 1 as [|field fields Hf _ IH]; [reflexivity|].
  cbn [for_each]. unfold check_field at 1. rewrite Hf, IH. reflexivity.
Qed.

Lemma check_fields_first self pre field post :
  Forall (fun field => found_keys (field.2 self) = []) pre ->
  found_keys (field.2 self) <> [] ->
  for_each (pre ++ field :: post) (check_field self)
  = ([], Raise (Exn ValueError
                  (prohibited_msg field.1 (found_keys (field.2 self))))).
Proof.
  intros Hpre Hfound. induction Hpre as [|f pre Hf _ IH]; cbn [app for_each].
  - unfold check_field at 1.
    destruct (found_keys (field.2 self)); [contradiction|reflexivity].
  - unfold check_field at 1. rewrite Hf, IH. reflexivity.
Qed.

(** X16: [check_prohibited_args] accepts the arguments, and returns them
    as they are, exactly when none of [fit], [validate], [predict],
    [lr_find] and [scale_batch_size] has one of the keys [model],
    [train_loaders], [validation_loaders], [dataloaders] and
    [datamodule]. *)
Theorem check_prohibited_args_accepts self :
  check_prohibited_args self = Ok self
  <-> (forall key, key ∈ prohibited_keys ->
         fit self !! key = None /\ validate self !! key = None
         /\ predict self !! key = None /\ lr_find self !! key = None
         /\ scale_batch_size self !! key = None).
Proof.
  unfold check_prohibited_args. split.
  - intros Hok key Hin.
    assert (Hall : Forall (fun field => found_keys (field.2 self) = [])
                     (model_fields (A:=A))).
    { apply Forall_forall. intros field Hfield.
      destruct (found_keys (field.2 self)) eqn:Hf; [reflexivity|].
      exfalso. apply list_elem_of_split in Hfield as (pre & post & Hsplit).
      revert Hok. rewrite Hsplit.
      assert (Hex : exists e, outcome (for_each (pre ++ field :: post)
                                         (check_field self)) = Raise e).
      { clear Hsplit. induction pre as [|f pre IH]; cbn [app for_each].
        - unfold check_field at 1. rewrite Hf. eexists. reflexivity.
        - unfold check_field at 1. destruct (found_keys (f.2 self)).
          + cbn [bind ret]. destruct IH as [e He].
            destruct (for_each (pre ++ field :: post) (check_field self))
              as [t r]. cbn in *. subst. eexists. reflexivity.
          + eexists. reflexivity. }
      destruct Hex as [e ->]. discriminate. }
    unfold model_fields in Hall.
    rewrite !Forall_cons in Hall. cbn [snd] in Hall.
    destruct Hall as (H1 & H2 & H3 & H4 & H5 & _).
    repeat split;
      [ apply (proj1 (found_keys_nil _) H1) | apply (proj1 (found_keys_nil _) H2)
      | apply (proj1 (found_keys_nil _) H3) | apply (proj1 (found_keys_nil _) H4)
      | apply (proj1 (found_keys_nil _) H5) ]; exact Hin.
  - intros Hall. rewrite check_fields_clean; [reflexivity|].
    unfold model_fields.
    rewrite !Forall_cons. cbn [snd].
    repeat split; try apply found_keys_nil;
      try (intros key Hin; apply (Hall key Hin)).
    constructor.
Qed.

(** X17: when a field has a prohibited key, [check_prohibited_args]
    raises a [ValueError] for the first such field in the order [fit],
    [validate], [predict], [lr_find], [scale_batch_size]; its message names
    the field and lists the prohibited keys found there, in the order of
    the list of prohibited keys. *)
Theorem check_prohibited_args_rejects self pre field post :
  model_fields = pre ++ field :: post ->
  Forall (fun earlier => found_keys (earlier.2 self) = []) pre ->
  found_keys (field.2 self) <> [] ->
  check_prohibited_args self
  = Raise (Exn ValueError
             (prohibited_msg field.1 (found_keys (field.2 self))))
  /\ (forall key, key ∈ found_keys (field.2 self)
        <-> key ∈ prohibited_keys /\ is_Some (field.2 self !! key))
  /\ String.prefix
       ("Found the following prohibited argument(s) in 'args#" +:+ field.1)
       (prohibited_msg field.1 (found_keys (field.2 self))) = true.
Proof.
  intros Hsplit Hpre Hfound. unfold check_prohibited_args.
  rewrite Hsplit, (check_fields_first _ _ _ _ Hpre Hfound).
  split; [reflexivity|]. split; [intros key; apply found_keys_spec|].
  unfold prohibited_msg.
  change ("Found the following prohibited argument(s) in 'args#" +:+ field.1
          +:+ "': " +:+ repr_list (found_keys (field.2 self))
          +:+ ". Model and datasets should be defined within the 'system'.")
    with ("Found the following prohibited argument(s) in 'args#"
          +:+ (field.1 +:+ "': " +:+ repr_list (found_keys (field.2 self))
          +:+ ". Model and datasets should be defined within the 'system'.")).
  rewrite prefix_append_l. apply prefix_append.
Qed.

End SchemaFacts.

(** * Properties of the setup of the earlier system *)

Section LightningbringerFacts.

Import Lightningbringer.

Context {dataset : Type}.
Implicit Types (self : System dataset) (stage : string).

Lemma required_lookup stage :
  dataset_required_by_stage !! stage
  = if String.eqb stage "fit" then Some "train_dataset"
    else if String.eqb stage "validate" then Some "val_dataset"
    else if String.eqb stage "test" then Some "test_dataset"
    else None.
Proof.
  unfold dataset_required_by_stage.
  destruct (String.eqb_spec stage "fit") as [->|Hf]; [reflexivity|].
  rewrite lookup_insert_ne by congruence.
  destruct (String.eqb_spec stage "validate") as [->|Hv]; [reflexivity|].
  rewrite lookup_insert_ne by congruence.
  destruct (String.eqb_spec stage "test") as [->|Ht]; [reflexivity|].
  apply lookup_singleton_ne. congruence.
Qed.

(** The three stages of the table, or none. *)
Lemma stage_cases stage :
  stage = "fit" \/ stage = "validate" \/ stage = "test"
  \/ dataset_required_by_stage !! stage = None.
Proof.
  rewrite required_lookup.
  destruct (String.eqb_spec stage "fit"); [auto|].
  destruct (String.eqb_spec stage "validate"); [auto|].
  destruct (String.eqb_spec stage "test"); auto.
Qed.

(** X18: [setup] fails before it binds anything: a stage other than
    [fit], [validate] and [test] raises a [KeyError] and logs nothing; a
    stage whose dataset is missing logs one error that names the dataset
    and exits; and whenever [setup] raises, the system is as before. *)
Theorem setup_failures self stage :
  (stage <> "fit" -> stage <> "validate" -> stage <> "test" ->
   setup self stage = (([], Raise (Exn KeyError stage)), self))
  /\ (forall dataset_name,
        dataset_required_by_stage !! stage = Some dataset_name ->
        getattr_dataset self dataset_name = None ->
        setup self stage
        = (([EvLoggerError (missing_msg dataset_name)],
            Raise (Exn SystemExit EmptyString)), self))
  /\ (forall t e self', setup self stage = ((t, Raise e), self') ->
        self' = self).
Proof.
  split; [|split].
  - intros Hf Hv Ht. unfold setup. rewrite required_lookup.
    destruct (String.eqb_spec stage "fit"); [contradiction|].
    destruct (String.eqb_spec stage "validate"); [contradiction|].
    destruct (String.eqb_spec stage "test"); [contradiction|]. reflexivity.
  - intros name Hname Hnone. unfold setup. rewrite Hname, Hnone. reflexivity.
  - intros t e self'. unfold setup.
    destruct (dataset_required_by_stage !! stage) as [name|];
      [destruct (getattr_dataset self name)|]; intros H; inversion H;
      reflexivity.
Qed.


(** X20: a second [setup] for the same stage changes nothing. *)
Theorem setup_idempotent self stage t self' :
  setup self stage = ((t, Ok tt), self') ->
  setup self' stage = (([], Ok tt), self').
Proof.
  unfold setup.
  destruct (stage_cases stage) as [->|[->|[->|Hnone]]];
    [| | |rewrite Hnone; discriminate]; rewrite required_lookup.
  - cbn. destruct (train_dataset self) as [d|] eqn:Hd; [|discriminate].
    destruct (val_dataset self) eqn:Hv; intros [= <- <-]; cbn;
      rewrite ?Hd, ?Hv; cbn; rewrite ?Hv; reflexivity.
  - cbn. destruct (val_dataset self) as [d|] eqn:Hd; [|discriminate].
    intros [= <- <-]. cbn. rewrite ?Hd. reflexivity.
  - cbn. destruct (test_dataset self) as [d|] eqn:Hd; [|discriminate].
    intros [= <- <-]. cbn. rewrite ?Hd. reflexivity.
Qed.

End LightningbringerFacts.

(** * The theorems at the examples *)

Import Examples.

Lemma predict_step_result_witness :
  Batch_new batch = Ok validated
  /\ outcome (_step stats sys batch 7 PREDICT)
     = Ok {[ "pred" := PObj 11; "id" := PNone ]}
  /\ trace (_step stats sys batch 7 PREDICT)
     = [EvModel (PObj 10) (Some 0) None].
Proof.
  assert (Hb : Batch_new batch = Ok validated) by (vm_compute; reflexivity).
  split; [exact Hb|].
  destruct (predict_step_result stats sys batch 7 validated Hb)
    as [(r & Hr & -> & _) _].
  split; [exact Hr|]. vm_compute. reflexivity.
Defined.


Lemma missing_total_fails_before_logging_witness :
  Batch_new batch = Ok validated
  /\ (VAL = TRAIN \/ VAL = VAL)
  /\ outcome (_step stats sys_no_total batch 0 VAL)
     = Raise (Exn ValueError total_msg)
  /\ trace (_step stats sys_no_total batch 0 VAL)
     = [EvModel (PObj 10) (Some 0) None;
        EvCriterion (PObj 10) (PObj 11) (PObj 1)].
Proof.
  assert (Hb : Batch_new batch = Ok validated) by (vm_compute; reflexivity).
  assert (Hm : VAL = TRAIN \/ VAL = VAL) by (right; reflexivity).
  split; [exact Hb|]. split; [exact Hm|].
  destruct (missing_total_fails_before_logging stats sys_no_total batch 0 VAL
              validated (fun _ _ _ => PDict [("aux", PObj 2)])
              [("aux", PObj 2)] Hb Hm eq_refl eq_refl eq_refl)
    as (Ho & _ & _).
  split; [exact Ho|]. vm_compute. reflexivity.
Defined.

Lemma step_result_loss_witness :
  TRAIN <> PREDICT
  /\ outcome (_step stats sys_no_logger batch 0 TRAIN)
     = Ok (step_result validated (PObj 11) (PObj 5) PNone)
  /\ step_result validated (PObj 11) (PObj 5) PNone !! "loss"
     = Some (PObj 5).
Proof.
  assert (Hm : TRAIN <> PREDICT) by discriminate.
  assert (Hr : outcome (_step stats sys_no_logger batch 0 TRAIN)
               = Ok (step_result validated (PObj 11) (PObj 5) PNone))
    by (vm_compute; reflexivity).
  split; [exact Hm|]. split; [exact Hr|].
  destruct (step_result_loss stats sys_no_logger batch 0 TRAIN _ Hm Hr)
    as (b & Hb & _ & Htv).
  destruct (Htv (or_introl eq_refl)) as (f & Hf & Hdict & _).
  injection Hf as <-.
  destruct (Hdict _ eq_refl) as (total & Ht & Hloss).
  injection Ht as <-. exact Hloss.
Defined.

Lemma log_stats_records_witness :
  logger (trainer sys) = Some "tb"
  /\ batch_size sys = None
  /\ has_records two_losses = true
  /\ _log_stats stats sys two_losses PNone TRAIN 0
     = ([], Raise no_batch_size)
  /\ logger (trainer sys_sized) = Some "tb"
  /\ batch_size sys_sized = Some 8
  /\ mapping_or_None (PNone : value) = true
  /\ log_name <$>
       (loss_records 8 TRAIN two_losses
        ++ optimizer_records stats 8 sys_sized TRAIN 0)
     = [ "train/loss/total/step"; "train/loss/total/epoch";
         "train/loss/aux/step"; "train/loss/aux/epoch";
         "train/optimizer/SGD/lr" ]
  /\ trace (_log_stats stats sys_sized two_losses PNone TRAIN 0)
     = EvLog <$> (loss_records 8 TRAIN two_losses
                  ++ optimizer_records stats 8 sys_sized TRAIN 0).
Proof.
  assert (Hl : logger (trainer sys) = Some "tb") by reflexivity.
  assert (Hu : batch_size sys = None) by reflexivity.
  assert (Hr : has_records two_losses = true) by reflexivity.
  assert (Hl' : logger (trainer sys_sized) = Some "tb") by reflexivity.
  assert (Hs : batch_size sys_sized = Some 8) by reflexivity.
  assert (Hm : mapping_or_None (PNone : value) = true) by reflexivity.
  split; [exact Hl|]. split; [exact Hu|]. split; [exact Hr|]. split.
  { destruct (proj1 (log_stats_records stats sys two_losses PNone TRAIN 0
                       "tb" Hl) Hu) as (_ & Hraise & _).
    exact (Hraise Hr). }
  split; [exact Hl'|]. split; [exact Hs|]. split; [exact Hm|].
  split; [vm_compute; reflexivity|].
  destruct (proj2 (log_stats_records stats sys_sized two_losses PNone TRAIN 0
                     "tb" Hl') 8 Hs Hm)
    as (loss_part & metrics_part & Ht & _ & Hd & _ & _ & Hn).
  rewrite Ht, (Hd _ eq_refl), (Hn eq_refl). reflexivity.
Defined.

Lemma log_stats_sync_witness :
  logger (trainer sys_no_logger) = None
  /\ _log_stats stats sys_no_logger two_losses PNone TRAIN 0 = ([], Ok tt)
  /\ logger (trainer sys) = Some "tb"
  /\ batch_size sys = None
  /\ stats (optimizer sys) = Ok [("optimizer/SGD/lr", PObj 3)]
  /\ (exists e,
        _log_stats stats sys two_losses PNone TRAIN 0 = ([], Raise e)
        /\ exn_cls e = AttributeError)
  /\ logger (trainer sys_sized) = Some "tb"
  /\ batch_size sys_sized = Some 8
  /\ (exists e,
        _log_stats stats sys_sized two_losses (PObj 1) TRAIN 0
        = (EvLog <$> loss_records 8 TRAIN two_losses, Raise e)
        /\ exn_cls e = AttributeError)
  /\ (exists stats_part,
        trace (_log_stats stats sys_sized two_losses PNone TRAIN 0)
        = (EvLog <$> loss_records 8 TRAIN two_losses ++ [])
          ++ (EvLog <$> stats_part)
        /\ stats_part = [epoch_record 8 "train/optimizer/SGD/lr" (PObj 3)])
  /\ (exists stats_part,
        trace (_log_stats stats sys_sized two_losses PNone TRAIN 1)
        = (EvLog <$> loss_records 8 TRAIN two_losses ++ [])
          ++ (EvLog <$> stats_part)
        /\ stats_part = []).
Proof.
  assert (Hn : logger (trainer sys_no_logger) = None) by reflexivity.
  assert (Hl : logger (trainer sys) = Some "tb") by reflexivity.
  assert (Hu : batch_size sys = None) by reflexivity.
  assert (Hst : stats (optimizer sys) = Ok [("optimizer/SGD/lr", PObj 3)])
    by (vm_compute; reflexivity).
  assert (Hl' : logger (trainer sys_sized) = Some "tb") by reflexivity.
  assert (Hs : batch_size sys_sized = Some 8) by reflexivity.
  split; [exact Hn|].
  split; [|split; [exact Hl|split; [exact Hu|split; [exact Hst|split]]]].
  - exact (proj1 (log_stats_sync stats sys_no_logger two_losses PNone TRAIN 0)
             Hn).
  - exact (proj1 (proj2 (proj2 (log_stats_sync stats sys two_losses PNone
                                  TRAIN 0)))
             "tb" _ _ Hl Hu eq_refl eq_refl Hst).
  - split; [exact Hl'|]. split; [exact Hs|]. split; [|split].
    + exact (proj1 (proj2 (proj2 (proj2 (log_stats_sync stats sys_sized
                                           two_losses (PObj 1) TRAIN 0))))
               "tb" 8 1 Hl' Hs eq_refl).
    + destruct (proj2 (proj2 (proj2 (proj2 (log_stats_sync stats sys_sized
                                              two_losses PNone TRAIN 0))))
                  "tb" 8 Hl' Hs eq_refl) as (stats_part & Ht & Hp & _).
      exists stats_part. split; [exact Ht|].
      exact (Hp (conj eq_refl eq_refl) _ Hst).
    + destruct (proj2 (proj2 (proj2 (proj2 (log_stats_sync stats sys_sized
                                              two_losses PNone TRAIN 1))))
                  "tb" 8 Hl' Hs eq_refl) as (stats_part & Ht & _ & Hp & _).
      exists stats_part. split; [exact Ht|].
      apply Hp. intros [_ H]. discriminate H.
Defined.

Lemma validate_batch_idempotent_witness :
  validate_batch batch = ([], Ok validated)
  /\ validate_batch (Batch_vars validated) = ([], Ok validated).
Proof.
  assert (Hv : validate_batch batch = ([], Ok validated))
    by (vm_compute; reflexivity).
  split; [exact Hv|].
  exact (proj1 (validate_batch_idempotent batch validated Hv)).
Defined.

Lemma learning_rate_groups_witness :
  optimizer sys_two_groups = Some two_groups
  /\ (1 < length (param_groups two_groups))%nat
  /\ learning_rate sys_two_groups = Raise (Exn ValueError multi_group_msg)
  /\ learning_rate_setter sys_two_groups (PObj 9)
     = (Raise (Exn ValueError multi_group_msg), sys_two_groups)
  /\ optimizer sys = Some one_group
  /\ param_groups one_group = [ {[ "lr" := PObj 3 ]} ]
  /\ learning_rate sys = Ok (PObj 3)
  /\ (exists sys', learning_rate_setter sys (PObj 9) = (Ok tt, sys')
                   /\ learning_rate sys' = Ok (PObj 9)).
Proof.
  assert (H2 : optimizer sys_two_groups = Some two_groups) by reflexivity.
  assert (Hlen : (1 < length (param_groups two_groups))%nat) by (simpl; lia).
  assert (H1 : optimizer sys = Some one_group) by reflexivity.
  assert (Hg : param_groups one_group = [ {[ "lr" := PObj 3 ]} ])
    by reflexivity.
  destruct (proj1 (learning_rate_groups sys_two_groups two_groups H2) Hlen)
    as (Hget & Hset & _).
  destruct (proj2 (learning_rate_groups sys one_group H1) _ Hg)
    as (Hread & Hwrite).
  destruct (Hwrite (PObj 9)) as (sys' & Hs & _ & Hr).
  split; [exact H2|]. split; [exact Hlen|]. split; [exact Hget|].
  split; [apply Hset|]. split; [exact H1|]. split; [exact Hg|].
  split; [apply Hread; vm_compute; reflexivity|].
  exists sys'. split; assumption.
Defined.

Lemma run_trainer_method_project_witness :
  forallb (Cli.readable disk) ["a.yaml"; "c.yaml"; "b.yaml"] = true
  /\ (2 <= Cli.declared disk ["a.yaml"; "c.yaml"; "b.yaml"])%nat
  /\ Cli.run_trainer_method disk Cli.fit
       {[ "config_file" := Cli.VSeq ["a.yaml"; "c.yaml"; "b.yaml"] ]}
     = ([Cli.EvOpen "a.yaml"; Cli.EvImport "project" "./a";
         Cli.EvOpen "c.yaml"; Cli.EvOpen "b.yaml";
         Cli.EvLoggerError Cli.project_msg],
        Raise (Exn SystemExit EmptyString))
  /\ Cli.count Cli.is_run
       (trace (Cli.run_trainer_method disk Cli.fit
                 {[ "config_file" :=
                      Cli.VSeq ["a.yaml"; "c.yaml"; "b.yaml"] ]})) = 0%nat
  /\ forallb (Cli.readable disk) ["c.yaml"; "b.yaml"] = true
  /\ (Cli.declared disk ["c.yaml"; "b.yaml"] <= 1)%nat
  /\ outcome (Cli.run_trainer_method disk Cli.fit
                {[ "config_file" := Cli.VSeq ["c.yaml"; "b.yaml"] ]})
     = Ok tt
  /\ Cli.count Cli.is_run
       (trace (Cli.run_trainer_method disk Cli.fit
                 {[ "config_file" := Cli.VSeq ["c.yaml"; "b.yaml"] ]}))
     = 1%nat.
Proof.
  assert (Hr3 : forallb (Cli.readable disk)
                  (Cli.config_files
                     {[ "config_file" :=
                          Cli.VSeq ["a.yaml"; "c.yaml"; "b.yaml"] ]}) = true)
    by (vm_compute; reflexivity).
  assert (Hr2 : forallb (Cli.readable disk)
                  (Cli.config_files
                     {[ "config_file" := Cli.VSeq ["c.yaml"; "b.yaml"] ]})
                = true)
    by (vm_compute; reflexivity).
  destruct (proj1 (run_trainer_method_project disk Cli.fit _ Hr3))
    as (_ & _ & _ & Hrun); [vm_compute; lia|].
  destruct (proj2 (run_trainer_method_project disk Cli.fit _ Hr2))
    as (Ho & _ & _ & _ & Hrun2 & _); [vm_compute; lia|].
  split; [vm_compute; reflexivity|]. split; [vm_compute; lia|].
  split; [vm_compute; reflexivity|]. split; [exact Hrun|].
  split; [vm_compute; reflexivity|]. split; [vm_compute; lia|].
  split; [exact Ho|exact Hrun2].
Defined.

Lemma criterion_called_unconditionally_witness :
  (TRAIN = TRAIN \/ TRAIN = VAL)
  /\ Batch_new batch = Ok validated
  /\ EvCriterion (PObj 10) (PObj 11) (PObj 1)
     ∈ trace (_step stats sys batch 0 TRAIN)
  /\ criterion sys_no_criterion = None
  /\ _step stats sys_no_criterion batch 0 TRAIN
     = ([EvModel (PObj 10) (Some 0) None], Raise not_callable).
Proof.
  assert (Hm : TRAIN = TRAIN \/ TRAIN = VAL) by (left; reflexivity).
  assert (Hb : Batch_new batch = Ok validated) by (vm_compute; reflexivity).
  split; [exact Hm|]. split; [exact Hb|]. split; [|split; [reflexivity|]].
  - exact (proj1 (proj1 (criterion_called_unconditionally stats sys batch 0
                           TRAIN Hm) validated Hb) _ eq_refl).
  - exact (proj2 (proj1 (criterion_called_unconditionally stats
                           sys_no_criterion batch 0 TRAIN Hm) validated Hb)
             eq_refl).
Defined.

(** * The further theorems at the examples *)

Lemma configure_optimizers_entries_witness :
  optimizer sys_no_optimizer = None
  /\ configure_optimizers sys_no_optimizer
     = Raise (Exn ValueError optimizer_missing_msg)
  /\ configure_optimizers sys = Ok {[ "optimizer" := CfgOptimizer one_group ]}
  /\ ({[ "optimizer" := CfgOptimizer one_group ]}
        : gmap string (optimizer_config Z)) !! "lr_scheduler" = None.
Proof.
  assert (Hn : optimizer sys_no_optimizer = None) by reflexivity.
  assert (Hr : configure_optimizers sys
               = Ok {[ "optimizer" := CfgOptimizer one_group ]})
    by reflexivity.
  split; [exact Hn|].
  split; [exact (proj1 (proj1 (configure_optimizers_entries sys_no_optimizer)
                          Hn))|].
  split; [exact Hr|].
  exact (proj1 (proj2 (proj2 (configure_optimizers_entries sys) _ Hr))).
Defined.

Lemma step_forward_calls_witness :
  Batch_new batch = Ok validated
  /\ (exists rest,
        trace (_step stats sys_inferer batch 0 VAL)
        = [ EvInferer (PObj 10); EvModel (PObj 10) (Some 0) None;
            EvModel (PObj 11) (Some 0) None ] ++ rest
        /\ Forall (fun ev => is_forward_call ev = false) rest)
  /\ (exists rest,
        trace (_step stats sys_inferer batch 0 TRAIN)
        = [EvModel (PObj 10) (Some 0) None] ++ rest
        /\ Forall (fun ev => is_forward_call ev = false) rest).
Proof.
  assert (Hb : Batch_new batch = Ok validated) by (vm_compute; reflexivity).
  split; [exact Hb|]. split.
  - destruct (step_forward_calls stats sys_inferer batch 0 VAL validated Hb)
      as (calls & rest & Ht & Hrest & _ & Hinf).
    destruct (Hinf _ eq_refl ltac:(discriminate)) as [Hc _].
    exists rest. split; [|exact Hrest]. rewrite Ht, Hc. reflexivity.
  - destruct (step_forward_calls stats sys_inferer batch 0 TRAIN validated Hb)
      as (calls & rest & Ht & Hrest & Hmodel & _).
    exists rest. split; [|exact Hrest].
    rewrite Ht, (Hmodel (or_intror eq_refl)). reflexivity.
Defined.

Lemma step_independent_of_criterion_witness :
  (TEST = TEST \/ TEST = PREDICT)
  /\ _step stats (with_criterion sys None) batch 0 TEST
     = _step stats sys batch 0 TEST.
Proof.
  assert (Hm : TEST = TEST \/ TEST = PREDICT) by (left; reflexivity).
  split; [exact Hm|].
  exact (step_independent_of_criterion stats sys None batch 0 TEST Hm).
Defined.

Lemma step_result_entries_witness :
  TEST <> PREDICT
  /\ outcome (_step stats sys batch 0 TEST)
     = Ok (step_result validated (PObj 11) PNone PNone)
  /\ step_result validated (PObj 11) PNone PNone !! "input" = Some (PObj 10)
  /\ step_result validated (PObj 11) PNone PNone !! "pred" = Some (PObj 11).
Proof.
  assert (Hm : TEST <> PREDICT) by discriminate.
  assert (Hr : outcome (_step stats sys batch 0 TEST)
               = Ok (step_result validated (PObj 11) PNone PNone))
    by (vm_compute; reflexivity).
  split; [exact Hm|]. split; [exact Hr|].
  destruct (step_result_entries stats sys batch 0 TEST _ Hm Hr)
    as (b & Hb & _ & Hi & _ & _ & Hp & _).
  assert (Hb' : Batch_new batch = Ok validated) by (vm_compute; reflexivity).
  rewrite Hb' in Hb. injection Hb as <-.
  split; [exact Hi|exact Hp].
Defined.

Lemma step_returns_witness :
  Batch_new batch = Ok validated
  /\ lacks_total two_losses = false
  /\ is_Some (batch_size sys_sized)
  /\ exists r, outcome (_step stats sys_sized batch 0 TRAIN) = Ok r.
Proof.
  assert (Hb : Batch_new batch = Ok validated) by (vm_compute; reflexivity).
  assert (Hl : lacks_total two_losses = false) by reflexivity.
  assert (Hs : is_Some (batch_size sys_sized)) by (eexists; reflexivity).
  split; [exact Hb|]. split; [exact Hl|]. split; [exact Hs|].
  apply (step_returns stats sys_sized batch 0 TRAIN validated two_losses Hb).
  - right. split; [left; reflexivity|]. eexists. split; reflexivity.
  - exact Hl.
  - right. left. split; [exact Hs|]. split; [reflexivity|].
    right. right. eexists. reflexivity.
Defined.

Lemma log_stats_outcome_witness :
  batch_size sys_sized = Some 8
  /\ mapping_or_None (PNone : value) = true
  /\ outcome (_log_stats stats_fail sys_sized two_losses PNone VAL 0) = Ok tt
  /\ _log_stats stats_fail sys_sized two_losses PNone TRAIN 0
     = (EvLog <$> (loss_records 8 TRAIN two_losses ++ []),
        Raise (Exn KeyError "lr")).
Proof.
  assert (Hs : batch_size sys_sized = Some 8) by reflexivity.
  assert (Hm : mapping_or_None (PNone : value) = true) by reflexivity.
  split; [exact Hs|]. split; [exact Hm|]. split.
  - apply (proj1 (log_stats_outcome stats_fail sys_sized 8 two_losses PNone
                    VAL 0 Hs Hm)).
    left. discriminate.
  - exact (proj2 (log_stats_outcome stats_fail sys_sized 8 two_losses PNone
                    TRAIN 0 Hs Hm)
             "tb" _ eq_refl eq_refl eq_refl eq_refl).
Defined.

Lemma metrics_called_before_total_check_witness :
  Batch_new batch = Ok validated
  /\ (TRAIN = TRAIN \/ TRAIN = VAL)
  /\ _step stats sys_metrics_no_total batch 0 TRAIN
     = ([ EvModel (PObj 10) (Some 0) None;
          EvCriterion (PObj 10) (PObj 11) (PObj 1);
          EvMetrics TRAIN (PObj 11) (PObj 1) ],
        Raise (Exn ValueError total_msg)).
Proof.
  assert (Hb : Batch_new batch = Ok validated) by (vm_compute; reflexivity).
  assert (Hm : TRAIN = TRAIN \/ TRAIN = VAL) by (left; reflexivity).
  split; [exact Hb|]. split; [exact Hm|].
  exact (metrics_called_before_total_check stats sys_metrics_no_total batch 0
           TRAIN validated _ [("aux", PObj 2)] _ Hb Hm eq_refl eq_refl
           eq_refl eq_refl).
Defined.

Lemma log_stats_tensor_metrics_witness :
  logger (trainer sys) = Some "tb"
  /\ batch_size sys = None
  /\ (exists e,
        outcome (_log_stats stats sys (PObj 5) (PObj 1) TRAIN 0) = Raise e
        /\ exn_cls e = AttributeError)
  /\ trace (_log_stats stats sys (PObj 5) (PObj 1) TRAIN 0) = []
  /\ logger (trainer sys_sized) = Some "tb"
  /\ batch_size sys_sized = Some 8
  /\ trace (_log_stats stats sys_sized (PObj 5) (PObj 1) TRAIN 0)
     = [ EvLog (step_record 8 "train/loss/step" (PObj 5));
         EvLog (epoch_record 8 "train/loss/epoch" (PObj 5)) ]
  /\ logger (trainer sys_no_logger) = None
  /\ _log_stats stats sys_no_logger (PObj 5) (PObj 1) TRAIN 0 = ([], Ok tt).
Proof.
  assert (Hl : logger (trainer sys) = Some "tb") by reflexivity.
  assert (Hu : batch_size sys = None) by reflexivity.
  assert (Hl' : logger (trainer sys_sized) = Some "tb") by reflexivity.
  assert (Hs : batch_size sys_sized = Some 8) by reflexivity.
  assert (Hn : logger (trainer sys_no_logger) = None) by reflexivity.
  destruct (proj1 (log_stats_tensor_metrics stats sys (PObj 5) 1 TRAIN 0)
              "tb" Hl) as (He & _ & Hnone).
  destruct (proj1 (log_stats_tensor_metrics stats sys_sized (PObj 5) 1 TRAIN 0)
              "tb" Hl') as (_ & Hsized & _).
  split; [exact Hl|]. split; [exact Hu|]. split; [exact He|].
  split; [exact (Hnone Hu)|]. split; [exact Hl'|]. split; [exact Hs|].
  split; [exact (Hsized 8 Hs)|]. split; [exact Hn|].
  exact (proj2 (log_stats_tensor_metrics stats sys_no_logger (PObj 5) 1
                  TRAIN 0) Hn).
Defined.

Lemma learning_rate_failures_witness :
  optimizer sys_no_optimizer = None
  /\ learning_rate sys_no_optimizer = Raise no_param_groups
  /\ learning_rate_setter sys_no_optimizer (PObj 9)
     = (Raise no_param_groups, sys_no_optimizer)
  /\ optimizer sys_no_groups = Some (sgd [])
  /\ (exists e, exn_cls e = IndexError
                /\ learning_rate sys_no_groups = Raise e)
  /\ optimizer sys_no_lr = Some (sgd [ {[ "momentum" := PObj 1 ]} ])
  /\ learning_rate sys_no_lr = Raise (Exn KeyError "lr")
  /\ (exists sys', learning_rate_setter sys_no_lr (PObj 9) = (Ok tt, sys')
                   /\ learning_rate sys' = Ok (PObj 9)).
Proof.
  assert (H0 : optimizer sys_no_optimizer = None) by reflexivity.
  assert (H1 : optimizer sys_no_groups = Some (sgd [])) by reflexivity.
  assert (H2 : optimizer sys_no_lr = Some (sgd [ {[ "momentum" := PObj 1 ]} ]))
    by reflexivity.
  destruct (proj1 (learning_rate_failures sys_no_optimizer) H0) as [Hg Hs].
  destruct (proj1 (proj2 (learning_rate_failures sys_no_groups)) _ H1 eq_refl)
    as (e & He & Hge & _).
  destruct (proj2 (proj2 (proj2 (learning_rate_failures sys_no_lr))) _ _ H2
              eq_refl ltac:(vm_compute; reflexivity)) as [Hk Hw].
  split; [exact H0|]. split; [exact Hg|]. split; [apply Hs|].
  split; [exact H1|]. split; [exists e; split; assumption|].
  split; [exact H2|]. split; [exact Hk|]. apply Hw.
Defined.

Lemma learning_rate_write_back_witness :
  learning_rate sys = Ok (PObj 3)
  /\ learning_rate_setter sys (PObj 3) = (Ok tt, sys).
Proof.
  assert (Hr : learning_rate sys = Ok (PObj 3)) by (vm_compute; reflexivity).
  split; [exact Hr|]. exact (learning_rate_write_back sys (PObj 3) Hr).
Defined.

Lemma learning_rate_setter_frame_witness :
  learning_rate_setter sys_no_lr (PObj 9)
  = (Ok tt,
     set_optimizer sys_no_lr
       {| param_groups :=
            [ <["lr" := PObj 9]> {[ "momentum" := PObj 1 ]} ] |})
  /\ (exists group : gmap string value,
        param_groups (sgd [ {[ "momentum" := PObj 1 ]} ]) = [group]
        /\ (<["lr" := PObj 9]> group : gmap string value) !! "momentum"
           = group !! "momentum").
Proof.
  assert (Hs : learning_rate_setter sys_no_lr (PObj 9)
               = (Ok tt,
                  set_optimizer sys_no_lr
                    {| param_groups :=
                         [ <["lr" := PObj 9]> {[ "momentum" := PObj 1 ]} ] |}))
    by reflexivity.
  split; [exact Hs|].
  destruct (learning_rate_setter_frame sys_no_lr (PObj 9) _ Hs)
    as (opt & group & Hopt & Hg & _ & Hkeep & _).
  injection Hopt as <-. exists group. split; [exact Hg|].
  apply Hkeep. discriminate.
Defined.

Lemma run_without_declaration_witness :
  forallb (Cli.readable disk)
    (Cli.config_files {[ "config_file" := Cli.VStr "c.yaml" ]}) = true
  /\ Cli.declared disk
       (Cli.config_files {[ "config_file" := Cli.VStr "c.yaml" ]}) = 0%nat
  /\ Cli.run_trainer_method disk Cli.test
       {[ "config_file" := Cli.VStr "c.yaml" ]}
     = ([ Cli.EvOpen "c.yaml";
          Cli.EvRun Cli.test {[ "config_file" := Cli.VStr "c.yaml" ]} ],
        Ok tt).
Proof.
  assert (Hr : forallb (Cli.readable disk)
                 (Cli.config_files {[ "config_file" := Cli.VStr "c.yaml" ]})
               = true) by (vm_compute; reflexivity).
  assert (Hd : Cli.declared disk
                 (Cli.config_files {[ "config_file" := Cli.VStr "c.yaml" ]})
               = 0%nat) by (vm_compute; reflexivity).
  split; [exact Hr|]. split; [exact Hd|].
  exact (run_without_declaration disk Cli.test _ Hr Hd).
Defined.

Lemma run_unreadable_config_witness :
  Cli.config_files
    {[ "config_file" := Cli.VSeq ["a.yaml"; "missing.yaml"; "b.yaml"] ]}
  = ["a.yaml"] ++ "missing.yaml" :: ["b.yaml"]
  /\ forallb (Cli.readable disk) ["a.yaml"] = true
  /\ (Cli.declared disk ["a.yaml"] <= 1)%nat
  /\ disk "missing.yaml" = None
  /\ Cli.run_trainer_method disk Cli.fit
       {[ "config_file" := Cli.VSeq ["a.yaml"; "missing.yaml"; "b.yaml"] ]}
     = ([ Cli.EvOpen "a.yaml"; Cli.EvImport "project" "./a";
          Cli.EvOpen "missing.yaml" ],
        Raise (Exn FileNotFoundError "missing.yaml")).
Proof.
  assert (Hc : Cli.config_files
                 {[ "config_file" :=
                      Cli.VSeq ["a.yaml"; "missing.yaml"; "b.yaml"] ]}
               = ["a.yaml"] ++ "missing.yaml" :: ["b.yaml"])
    by (vm_compute; reflexivity).
  assert (Hr : forallb (Cli.readable disk) ["a.yaml"] = true)
    by (vm_compute; reflexivity).
  assert (Hd : (Cli.declared disk ["a.yaml"] <= 1)%nat) by (vm_compute; lia).
  assert (Hm : disk "missing.yaml" = None) by (vm_compute; reflexivity).
  split; [exact Hc|]. split; [exact Hr|]. split; [exact Hd|].
  split; [exact Hm|].
  rewrite (proj1 (run_unreadable_config disk Cli.fit _ _ _ _ Hc Hr Hd Hm)).
  vm_compute. reflexivity.
Defined.

Lemma run_exits_at_second_declaration_witness :
  Cli.config_files
    {[ "config_file" := Cli.VSeq ["a.yaml"; "b.yaml"; "missing.yaml"] ]}
  = ["a.yaml"] ++ "b.yaml" :: ["missing.yaml"]
  /\ forallb (Cli.readable disk) ["a.yaml"] = true
  /\ Cli.declared disk ["a.yaml"] = 1%nat
  /\ Cli.declares_project disk "b.yaml" = true
  /\ Cli.run_trainer_method disk Cli.fit
       {[ "config_file" := Cli.VSeq ["a.yaml"; "b.yaml"; "missing.yaml"] ]}
     = ([ Cli.EvOpen "a.yaml"; Cli.EvImport "project" "./a";
          Cli.EvOpen "b.yaml"; Cli.EvLoggerError Cli.project_msg ],
        Raise (Exn SystemExit EmptyString)).
Proof.
  assert (Hc : Cli.config_files
                 {[ "config_file" :=
                      Cli.VSeq ["a.yaml"; "b.yaml"; "missing.yaml"] ]}
               = ["a.yaml"] ++ "b.yaml" :: ["missing.yaml"])
    by (vm_compute; reflexivity).
  assert (Hr : forallb (Cli.readable disk) ["a.yaml"] = true)
    by (vm_compute; reflexivity).
  assert (Hd : Cli.declared disk ["a.yaml"] = 1%nat)
    by (vm_compute; reflexivity).
  assert (Hs : Cli.declares_project disk "b.yaml" = true)
    by (vm_compute; reflexivity).
  split; [exact Hc|]. split; [exact Hr|]. split; [exact Hd|].
  split; [exact Hs|].
  rewrite (proj1 (run_exits_at_second_declaration disk Cli.fit _ _ _ _
                    Hc Hr Hd Hs)).
  vm_compute. reflexivity.
Defined.

Lemma check_prohibited_args_accepts_witness :
  Schema.check_prohibited_args args_ok = Ok args_ok
  /\ Schema.fit args_ok !! "model" = None.
Proof.
  assert (Hok : Schema.check_prohibited_args args_ok = Ok args_ok)
    by (vm_compute; reflexivity).
  split; [exact Hok|].
  apply (proj1 (check_prohibited_args_accepts args_ok) Hok "model").
  vm_compute. left.
Defined.

Lemma check_prohibited_args_rejects_witness :
  Schema.model_fields (A:=Z)
  = [("fit", Schema.fit)]
    ++ ("validate", Schema.validate)
    :: [ ("predict", Schema.predict); ("lr_find", Schema.lr_find);
         ("scale_batch_size", Schema.scale_batch_size) ]
  /\ Schema.found_keys (Schema.fit args_bad) = []
  /\ Schema.found_keys (Schema.validate args_bad) = ["model"; "datamodule"]
  /\ Schema.check_prohibited_args args_bad
     = Raise (Exn ValueError
                "Found the following prohibited argument(s) in 'args#validate': ['model', 'datamodule']. Model and datasets should be defined within the 'system'.").
Proof.
  assert (Hf : Schema.model_fields (A:=Z)
               = [("fit", Schema.fit)]
                 ++ ("validate", Schema.validate)
                 :: [ ("predict", Schema.predict);
                      ("lr_find", Schema.lr_find);
                      ("scale_batch_size", Schema.scale_batch_size) ])
    by reflexivity.
  assert (H1 : Schema.found_keys (Schema.fit args_bad) = [])
    by (vm_compute; reflexivity).
  assert (H2 : Schema.found_keys (Schema.validate args_bad)
               = ["model"; "datamodule"]) by (vm_compute; reflexivity).
  split; [exact Hf|]. split; [exact H1|]. split; [exact H2|].
  rewrite (proj1 (check_prohibited_args_rejects args_bad _ _ _ Hf
                    ltac:(constructor; [exact H1|constructor])
                    ltac:(cbn [snd]; rewrite H2; discriminate))).
  vm_compute. reflexivity.
Defined.

Lemma setup_failures_witness :
  Lightningbringer.setup lb_sys "predict"
  = (([], Raise (Exn KeyError "predict")), lb_sys)
  /\ Lightningbringer.dataset_required_by_stage !! "validate"
     = Some "val_dataset"
  /\ Lightningbringer.getattr_dataset lb_sys "val_dataset" = None
  /\ Lightningbringer.setup lb_sys "validate"
     = (([Lightningbringer.EvLoggerError
            "Please specify 'val_dataset' in the config. Exiting."],
         Raise (Exn SystemExit EmptyString)), lb_sys).
Proof.
  assert (Hn : Lightningbringer.dataset_required_by_stage !! "validate"
               = Some "val_dataset") by (vm_compute; reflexivity).
  assert (Hg : Lightningbringer.getattr_dataset lb_sys "val_dataset" = None)
    by reflexivity.
  split; [|split; [exact Hn|split; [exact Hg|]]].
  - apply (proj1 (setup_failures lb_sys "predict")); discriminate.
  - exact (proj1 (proj2 (setup_failures lb_sys "validate")) _ Hn Hg).
Defined.


Lemma setup_idempotent_witness :
  Lightningbringer.setup lb_sys "fit"
  = (([], Ok tt), Lightningbringer.set_train lb_sys)
  /\ Lightningbringer.setup (Lightningbringer.set_train lb_sys) "fit"
     = (([], Ok tt), Lightningbringer.set_train lb_sys).
Proof.
  assert (Hs : Lightningbringer.setup lb_sys "fit"
               = (([], Ok tt), Lightningbringer.set_train lb_sys))
    by (vm_compute; reflexivity).
  split; [exact Hs|].
  exact (setup_idempotent lb_sys "fit" _ _ Hs).
Defined.
